(** * Downtime reconstruction and OEE analytics (utils/analytics.ts)

    A shallow embedding of the analytics engine of the machine-monitoring
    dashboard: [getDowntimeIntervals], [calculateFleetMetrics],
    [calculatePareto] and [generateAIInsights], with the properties the
    specification states about them.

    Conventions of the embedding.
    - Instants and millisecond durations are integral JavaScript numbers; they
      are modelled as [Z].  An ISO timestamp string stands for the instant
      [new Date(s).getTime()] it denotes, so [timestamp] and [lastUpdated]
      are [Z] fields.
    - Ratios and percentages are JavaScript doubles; they are modelled as
      exact rationals [Q] and compared with [Qeq].  Every division of the
      source is guarded by a positivity test, which is kept.
    - [Date.now()] is an explicit argument [now].
    - The module [./timeCalculations] (the shift clock) is not part of the
      analysed sources: its two functions are Section variables, and the
      type [WorkHoursConfig], which the analytics only passes along, is a
      Section variable as well. *)

From Stdlib Require Import ZArith QArith Qround Qminmax Lia Lqa List.
From stdpp Require Import gmap strings list sorting pretty.

Local Open Scope Z_scope.

(** ** JavaScript numeric helpers *)

(** [Math.round]: the nearest integer, halves rounded towards +infinity. *)
Definition mathRound (x : Q) : Z := Qfloor (x + (1 # 2)).

(** [Math.round(x * 10) / 10]. *)
Definition round1 (x : Q) : Q := inject_Z (mathRound (x * 10)) / 10.

(** [Math.min(100, Math.max(0, x))]. *)
Definition clampPercent (x : Q) : Q := Qmin 100 (Qmax 0 x).

Definition Qltb (x y : Q) : bool := negb (Qle_bool y x).

(** ** [Array.prototype.sort] with a comparator

    The sort of the language is stable; with a consistent comparator its
    result is the one of a stable insertion sort.  [le a b] stands for
    [compare(a, b) <= 0]. *)
Section StableSort.
Context {A : Type} (le : A -> A -> bool).

Fixpoint insertSorted (x : A) (l : list A) : list A :=
  match l with
  | [] => [x]
  | y :: l' => if le x y then x :: l else y :: insertSorted x l'
  end.

Fixpoint arraySort (l : list A) : list A :=
  match l with
  | [] => []
  | x :: l' => insertSorted x (arraySort l')
  end.
End StableSort.

(** ** Data model (../types) *)

(** Modelled from the spec: the declaration of [MachineStatus] is missing
    from the sources; the spec describes a two-value run/stop enumeration. *)
Inductive MachineStatus : Set := RUNNING | STOPPED.

(** Modelled from the spec: the declaration of [CycleUnit] is missing from
    the sources; the spec lists seconds, minutes and hours. *)
Inductive CycleUnit : Set := SECONDS | MINUTES | HOURS.

(** The fields of a machine snapshot that the analytics reads. *)
Record Machine : Type := {
  m_id : Z;
  m_name : string;
  m_status : MachineStatus;
  m_lastUpdated : Z;
  m_accumulatedDowntimeMs : Z;
  m_productionCount : Z;
  m_scrapCount : Z;
  m_cycleTimeValue : Q;
  m_cycleTimeUnit : CycleUnit
}.

(** A status-change event; [log_reason] is [None] for a null reason. *)
Record MachineHistoryLog : Type := {
  log_machineId : Z;
  log_previousStatus : MachineStatus;
  log_newStatus : MachineStatus;
  log_reason : option string;
  log_timestamp : Z
}.

(** The anonymous record pushed to [intervals]. *)
Record Interval : Type := {
  iv_machineId : Z;
  iv_reason : string;
  iv_start : Z;
  iv_end : Z;
  iv_duration : Z
}.

(** An entry of [activeStops]. *)
Record ActiveStop : Type := {
  as_start : Z;
  as_reason : string
}.

Record MachineMetrics : Type := {
  mm_machineId : Z;
  mm_machineName : string;
  mm_totalDowntimeMs : Z;
  mm_failureCount : Z;
  mm_mtbf : Q;
  mm_mttr : Z;
  mm_availability : Q;
  mm_performance : Q;
  mm_quality : Q;
  mm_oee : Q
}.

Record ParetoItem : Type := {
  pi_reason : string;
  pi_count : Z;
  pi_durationMs : Z;
  pi_accumulatedPercent : Z
}.

(** ** getCycleTimeInSeconds *)

Definition getCycleTimeInSeconds (val : Q) (unit : CycleUnit) : Q :=
  if Qle_bool val 0 then 30
  else match unit with
       | MINUTES => val * 60
       | HOURS => val * 3600
       | SECONDS => val
       end.

(** ** getDowntimeIntervals: the event replay *)

(** [log.reason || 'Desconhecido']: null and the empty string are falsy. *)
Definition reasonOrDefault (r : option string) : string :=
  match r with
  | Some s => if String.eqb s EmptyString then "Desconhecido" else s
  | None => "Desconhecido"
  end.

(** The two mutable locals of the function: the [intervals] array and the
    [activeStops] object keyed by machine id. *)
Record ReplayState : Type := {
  intervals : list Interval;
  activeStops : gmap Z ActiveStop
}.

Definition initialState : ReplayState :=
  {| intervals := []; activeStops := ∅ |}.

(** [filterStart && ts < filterStart.getTime()]. *)
Definition beforeFilter (filterStart : option Z) (ts : Z) : bool :=
  match filterStart with
  | Some f => ts <? f
  | None => false
  end.

(** The body of [sortedLogs.forEach]. *)
Definition replayStep (filterStart : option Z)
    (st : ReplayState) (log : MachineHistoryLog) : ReplayState :=
  let ts := log_timestamp log in
  if beforeFilter filterStart ts then st
  else match log_newStatus log with
       | STOPPED =>
           {| intervals := intervals st;
              activeStops :=
                <[log_machineId log :=
                    {| as_start := ts;
                       as_reason := reasonOrDefault (log_reason log) |}]>
                  (activeStops st) |}
       | RUNNING =>
           match activeStops st !! log_machineId log with
           | Some open =>
               let start := as_start open in
               let duration := ts - start in
               {| intervals :=
                    intervals st ++
                      [{| iv_machineId := log_machineId log;
                          iv_reason := as_reason open;
                          iv_start := start;
                          iv_end := ts;
                          iv_duration := duration |}];
                  activeStops := delete (log_machineId log) (activeStops st) |}
           | None => st
           end
       end.

Definition replay (filterStart : option Z)
    (logs : list MachineHistoryLog) (st : ReplayState) : ReplayState :=
  fold_left (replayStep filterStart) logs st.

(** The comparator of the defensive sort: ascending timestamps. *)
Definition logLe (a b : MachineHistoryLog) : bool :=
  log_timestamp a - log_timestamp b <=? 0.

Definition sortLogs (history : list MachineHistoryLog) : list MachineHistoryLog :=
  arraySort logLe history.

(** ** The shift clock (./timeCalculations) *)

Module ShiftClock.

(** Modelled from the spec: the work-hours configuration, whose declaration
    is missing from the sources: an enabled flag and the shift start and
    end as times of day, here in milliseconds after midnight. *)
Record WorkHoursConfig : Type := {
  enabled : bool;
  shiftStart : Z;
  shiftEnd : Z
}.

Definition dayMs : Z := 24 * 60 * 60 * 1000.

(** Length of the intersection of [a, b) with [c, d]. *)
Definition overlap (a b c d : Z) : Z := Z.max 0 (Z.min b d - Z.max a c).

Definition daysBetween (startInstant endInstant : Z) : list Z :=
  let firstDay := startInstant / dayMs in
  let lastDay := endInstant / dayMs in
  map (fun k => firstDay + Z.of_nat k)
      (seq 0 (Z.to_nat (lastDay - firstDay + 1))).

(** Modelled from the spec: [workingMsBetween] of the missing module
    ./timeCalculations: the portion of [startInstant, endInstant) inside
    the shift window, summed over the calendar days (UTC) the span
    crosses; 0 when the span is empty; the raw difference when the
    configuration is disabled. *)
Definition workingMsBetween (startInstant endInstant : Z)
    (config : WorkHoursConfig) : Z :=
  if endInstant <=? startInstant then 0
  else if negb (enabled config) then endInstant - startInstant
  else fold_left
         (fun acc day =>
            acc + overlap startInstant endInstant
                    (day * dayMs + shiftStart config)
                    (day * dayMs + shiftEnd config))
         (daysBetween startInstant endInstant) 0.

(** Modelled from the spec: [activeDowntime] ([calculateActiveDowntime] in
    the sources that import it) of the missing module ./timeCalculations:
    [workingMsBetween(openedAtInstant, nowInstant, config)]. *)
Definition calculateActiveDowntime (openedAt : Z)
    (config : WorkHoursConfig) (now : Z) : Z :=
  workingMsBetween openedAt now config.

(** Modelled from the spec: [elapsedShiftTimeToday]
    ([getElapsedShiftTimeTodayMs] in the sources that import it) of the
    missing module ./timeCalculations: the working time between today's
    midnight and [now]; with a disabled configuration that is the time
    since midnight, and before the shift start it is 0. *)
Definition getElapsedShiftTimeTodayMs (config : WorkHoursConfig)
    (now : Z) : Z :=
  workingMsBetween (now - now mod dayMs) now config.

(** The default configuration of the persistence layer, 08:00 to 18:49. *)
Definition defaultWorkHours : WorkHoursConfig :=
  {| enabled := true;
     shiftStart := 8 * 3600000;
     shiftEnd := 18 * 3600000 + 49 * 60000 |}.

Definition alwaysWorking : WorkHoursConfig :=
  {| enabled := false; shiftStart := 0; shiftEnd := 0 |}.

End ShiftClock.

(** ** Sample data

    Concrete snapshots and event logs on which the analytics is run below. *)

Definition sampleMachine (id : Z) (st : MachineStatus) (good scrap : Z)
    : Machine :=
  {| m_id := id;
     m_name := "Modeladora";
     m_status := st;
     m_lastUpdated := 0;
     m_accumulatedDowntimeMs := 0;
     m_productionCount := good;
     m_scrapCount := scrap;
     m_cycleTimeValue := 30;
     m_cycleTimeUnit := SECONDS |}.

Definition stopEvent (id : Z) (reason : string) (ts : Z) : MachineHistoryLog :=
  {| log_machineId := id;
     log_previousStatus := RUNNING;
     log_newStatus := STOPPED;
     log_reason := Some reason;
     log_timestamp := ts |}.

Definition runEvent (id : Z) (ts : Z) : MachineHistoryLog :=
  {| log_machineId := id;
     log_previousStatus := STOPPED;
     log_newStatus := RUNNING;
     log_reason := None;
     log_timestamp := ts |}.

(** One hour after midnight; with work hours disabled the shift has then
    been running for 3600000 ms. *)
Definition oneHour : Z := 3600000.

(** A stop and the matching restart carrying the same timestamp, in both
    storage orders. *)
Definition tiedLog : list MachineHistoryLog :=
  [stopEvent 1 "Setup" 10; runEvent 1 10].

Definition tiedLogShuffled : list MachineHistoryLog :=
  [runEvent 1 10; stopEvent 1 "Setup" 10].

(** Two machines that stop in the same millisecond and restart in the same
    millisecond. *)
Definition crossTiedLog : list MachineHistoryLog :=
  [stopEvent 1 "Setup" 10; stopEvent 2 "Falta de material" 10;
   runEvent 1 20; runEvent 2 20].

(** A one-minute stoppage that ended forty days before [fortyDaysLater]. *)
Definition oldLog : list MachineHistoryLog :=
  [stopEvent 1 "Setup" 0; runEvent 1 60000].

Definition fortyDaysLater : Z := 40 * 24 * 60 * 60 * 1000 + oneHour.

Definition mixedLog : list MachineHistoryLog :=
  [runEvent 1 40; stopEvent 2 "Falta de material" 50;
   stopEvent 1 "Setup" 10; runEvent 1 70; stopEvent 1 "7" 60].

(** Formatters standing for [toFixed(1)] and for the conversion of a
    number to a string, on the non-negative one-decimal values of the
    samples. *)
Definition sampleToFixed1 (x : Q) : string :=
  let n := mathRound (x * 10) in
  pretty (n / 10) +:+ "." +:+ pretty (n mod 10).

Definition sampleNumberToString (x : Q) : string :=
  let n := mathRound (x * 10) in
  if n mod 10 =? 0 then pretty (n / 10)
  else pretty (n / 10) +:+ "." +:+ pretty (n mod 10).

Definition sampleMetrics (id : Z) (oee : Q) : MachineMetrics :=
  {| mm_machineId := id;
     mm_machineName := "Modeladora";
     mm_totalDowntimeMs := 0;
     mm_failureCount := 0;
     mm_mtbf := 720;
     mm_mttr := 0;
     mm_availability := 100;
     mm_performance := oee;
     mm_quality := 100;
     mm_oee := oee |}.

(** ** The analytics proper *)

Section Analytics.

(** The collaborators imported from ../types and ./timeCalculations. *)
Variable WorkHoursConfig : Type.
Variable calculateActiveDowntime : Z -> WorkHoursConfig -> Z -> Z.
Variable getElapsedShiftTimeTodayMs : WorkHoursConfig -> Z -> Z.

(** The body of [machines.forEach] at the end of [getDowntimeIntervals]:
    a machine stopped in the snapshot with a stoppage still open gets one
    more interval, priced by the shift clock. *)
Definition pushOpenInterval (workHours : WorkHoursConfig) (now : Z)
    (active : gmap Z ActiveStop)
    (ivs : list Interval) (m : Machine) : list Interval :=
  match m_status m, active !! m_id m with
  | STOPPED, Some open =>
      let start := as_start open in
      let duration := calculateActiveDowntime start workHours now in
      ivs ++ [{| iv_machineId := m_id m;
                 iv_reason := as_reason open;
                 iv_start := start;
                 iv_end := now;
                 iv_duration := duration |}]
  | _, _ => ivs
  end.

Definition getDowntimeIntervals (history : list MachineHistoryLog)
    (machines : list Machine) (workHours : WorkHoursConfig)
    (filterStart : option Z) (now : Z) : list Interval :=
  let sortedLogs := sortLogs history in
  let st := replay filterStart sortedLogs initialState in
  fold_left (pushOpenInterval workHours now (activeStops st))
            machines (intervals st).

(** *** calculateFleetMetrics *)

Definition THIRTY_DAYS_MS : Z := 30 * 24 * 60 * 60 * 1000.

Definition machineIntervalsAll (ivs : list Interval) (machine : Machine)
    : list Interval :=
  List.filter (fun i => iv_machineId i =? m_id machine) ivs.

Definition totalDowntimeHistorical (machineIvs : list Interval) : Z :=
  fold_left (fun acc curr => acc + iv_duration curr) machineIvs 0.

Definition failureCount (machineIvs : list Interval) : Z :=
  Z.of_nat (length machineIvs).

Definition mttrMinutes (total count : Z) : Q :=
  if 0 <? count
  then ((inject_Z total / inject_Z count) / 1000 / 60)%Q
  else 0%Q.

Definition uptimeHistorical (total : Z) : Z := THIRTY_DAYS_MS - total.

Definition mtbfHours (total count : Z) : Q :=
  if 0 <? count
  then ((inject_Z (uptimeHistorical total) / inject_Z count) / 1000 / 3600)%Q
  else (inject_Z (uptimeHistorical total) / 1000 / 3600)%Q.

(** [calculateActiveDowntime(machine.lastUpdated, workHours)] is called
    without its third argument, which then stands for the current instant. *)
Definition currentStopDuration (workHours : WorkHoursConfig) (now : Z)
    (machine : Machine) : Z :=
  match m_status machine with
  | STOPPED => calculateActiveDowntime (m_lastUpdated machine) workHours now
  | RUNNING => 0
  end.

Definition downtimeTodayMs (workHours : WorkHoursConfig) (now : Z)
    (machine : Machine) : Z :=
  m_accumulatedDowntimeMs machine + currentStopDuration workHours now machine.

Definition runTimeMs (workHours : WorkHoursConfig) (now : Z)
    (machine : Machine) : Z :=
  Z.max 0 (getElapsedShiftTimeTodayMs workHours now
           - downtimeTodayMs workHours now machine).

Definition availability (workHours : WorkHoursConfig) (now : Z)
    (machine : Machine) : Q :=
  let plannedProductionTimeMs := getElapsedShiftTimeTodayMs workHours now in
  if 0 <? plannedProductionTimeMs
  then ((inject_Z (runTimeMs workHours now machine)
         / inject_Z plannedProductionTimeMs) * 100)%Q
  else 0%Q.

Definition theoreticalMaxProduction (workHours : WorkHoursConfig) (now : Z)
    (machine : Machine) : Q :=
  let cycleTimeSeconds :=
    getCycleTimeInSeconds (m_cycleTimeValue machine) (m_cycleTimeUnit machine) in
  let runTimeSeconds := (inject_Z (runTimeMs workHours now machine) / 1000)%Q in
  if Qltb 0 cycleTimeSeconds
  then (runTimeSeconds / cycleTimeSeconds)%Q
  else 0%Q.

Definition totalProduced (machine : Machine) : Z :=
  m_productionCount machine + m_scrapCount machine.

Definition performance (workHours : WorkHoursConfig) (now : Z)
    (machine : Machine) : Q :=
  let max := theoreticalMaxProduction workHours now machine in
  if Qltb 0 max
  then ((inject_Z (totalProduced machine) / max) * 100)%Q
  else 0%Q.

Definition quality (machine : Machine) : Q :=
  if 0 <? totalProduced machine
  then ((inject_Z (m_productionCount machine)
         / inject_Z (totalProduced machine)) * 100)%Q
  else 100%Q.

Definition oee (workHours : WorkHoursConfig) (now : Z)
    (machine : Machine) : Q :=
  ((availability workHours now machine / 100)
   * (performance workHours now machine / 100)
   * (quality machine / 100) * 100)%Q.

(** The callback of [machines.map]. *)
Definition machineMetrics (ivs : list Interval)
    (workHours : WorkHoursConfig) (now : Z) (machine : Machine)
    : MachineMetrics :=
  let mine := machineIntervalsAll ivs machine in
  let total := totalDowntimeHistorical mine in
  let count := failureCount mine in
  {| mm_machineId := m_id machine;
     mm_machineName := m_name machine;
     mm_totalDowntimeMs := downtimeTodayMs workHours now machine;
     mm_failureCount := count;
     mm_mtbf := round1 (mtbfHours total count);
     mm_mttr := mathRound (mttrMinutes total count);
     mm_availability := clampPercent (round1 (availability workHours now machine));
     mm_performance := clampPercent (round1 (performance workHours now machine));
     mm_quality := clampPercent (round1 (quality machine));
     mm_oee := clampPercent (round1 (oee workHours now machine)) |}.

(** [getDowntimeIntervals] is called without [filterStart]. *)
Definition calculateFleetMetrics (machines : list Machine)
    (history : list MachineHistoryLog) (workHours : WorkHoursConfig)
    (now : Z) : list MachineMetrics :=
  let ivs := getDowntimeIntervals history machines workHours None now in
  map (machineMetrics ivs workHours now) machines.

(** *** calculatePareto *)

(** A value of the [grouped] object. *)
Record Group : Type := {
  g_count : Z;
  g_duration : Z
}.

(** [grouped] is an object used as a map from reason to group.  It is kept
    as an association list in insertion order, because the order of its keys
    decides ties in the later sort.  Reason labels are taken not to collide
    with the members every object inherits. *)
Fixpoint addToGroup (reason : string) (duration : Z)
    (grouped : list (string * Group)) : list (string * Group) :=
  match grouped with
  | [] => [(reason, {| g_count := 0 + 1; g_duration := 0 + duration |})]
  | (k, g) :: rest =>
      if String.eqb k reason
      then (k, {| g_count := g_count g + 1;
                  g_duration := g_duration g + duration |}) :: rest
      else (k, g) :: addToGroup reason duration rest
  end.

(** The members a plain object inherits.  For such a label
    [grouped[label]] is truthy before any group exists, so the test
    [!grouped[i.reason]] creates no group for it; the properties that speak
    of every reason leave these labels out. *)
Definition inheritedMembers : list string :=
  ["constructor"; "__defineGetter__"; "__defineSetter__"; "hasOwnProperty";
   "__lookupGetter__"; "__lookupSetter__"; "isPrototypeOf";
   "propertyIsEnumerable"; "toString"; "valueOf"; "__proto__";
   "toLocaleString"].

Definition isInheritedMember (label : string) : bool :=
  existsb (String.eqb label) inheritedMembers.

(** The body of [intervals.forEach] in [calculatePareto]. *)
Definition groupStep (grouped : list (string * Group)) (i : Interval)
    : list (string * Group) :=
  addToGroup (iv_reason i) (iv_duration i) grouped.

Definition digitValue (c : Ascii.ascii) : option Z :=
  let n := Z.of_nat (Ascii.nat_of_ascii c) in
  if (48 <=? n) && (n <=? 57) then Some (n - 48) else None.

Fixpoint parseDigits (acc : Z) (s : string) : option Z :=
  match s with
  | EmptyString => Some acc
  | String c s' =>
      match digitValue c with
      | Some d => parseDigits (acc * 10 + d) s'
      | None => None
      end
  end.

(** The keys the language treats as array indices: canonical decimal
    numerals below 2^32 - 1. *)
Definition arrayIndex (s : string) : option Z :=
  match s with
  | EmptyString => None
  | String c rest =>
      if Ascii.eqb c (Ascii.ascii_of_nat 48)
      then match rest with EmptyString => Some 0 | _ => None end
      else match parseDigits 0 s with
           | Some n => if n <? 4294967295 then Some n else None
           | None => None
           end
  end.

Definition isArrayIndex (s : string) : bool :=
  match arrayIndex s with Some _ => true | None => false end.

Definition indexLe (a b : string * Group) : bool :=
  match arrayIndex (fst a), arrayIndex (fst b) with
  | Some x, Some y => x <=? y
  | _, _ => true
  end.

(** The enumeration order of [Object.keys] and [Object.values]: array-index
    keys first, in ascending numeric order, then the other keys in insertion
    order. *)
Definition objectEntries (grouped : list (string * Group))
    : list (string * Group) :=
  arraySort indexLe (List.filter (fun e => isArrayIndex (fst e)) grouped)
  ++ List.filter (fun e => negb (isArrayIndex (fst e))) grouped.

Record ParetoEntry : Type := {
  pe_reason : string;
  pe_count : Z;
  pe_durationMs : Z
}.

(** The comparator [(a, b) => b.durationMs - a.durationMs]. *)
Definition paretoLe (a b : ParetoEntry) : bool :=
  pe_durationMs b - pe_durationMs a <=? 0.

(** [sorted.map] with its captured, mutated [accumulated]. *)
Fixpoint accumulate (totalDuration : Z) (accumulated : Q)
    (sorted : list ParetoEntry) : list ParetoItem :=
  match sorted with
  | [] => []
  | item :: rest =>
      let percent : Q :=
        if 0 <? totalDuration
        then ((inject_Z (pe_durationMs item) / inject_Z totalDuration) * 100)%Q
        else 0%Q in
      let accumulated' : Q := (accumulated + percent)%Q in
      {| pi_reason := pe_reason item;
         pi_count := pe_count item;
         pi_durationMs := pe_durationMs item;
         pi_accumulatedPercent := mathRound accumulated' |}
      :: accumulate totalDuration accumulated' rest
  end.

Definition paretoGrouped (ivs : list Interval) : list (string * Group) :=
  fold_left groupStep ivs [].

Definition paretoTotalDuration (grouped : list (string * Group)) : Z :=
  fold_left (fun acc curr => acc + g_duration (snd curr))
            (objectEntries grouped) 0.

Definition paretoSorted (grouped : list (string * Group)) : list ParetoEntry :=
  arraySort paretoLe
    (map (fun e => {| pe_reason := fst e;
                      pe_count := g_count (snd e);
                      pe_durationMs := g_duration (snd e) |})
         (objectEntries grouped)).

Definition calculatePareto (machines : list Machine)
    (history : list MachineHistoryLog) (workHours : WorkHoursConfig)
    (now : Z) : list ParetoItem :=
  let ivs := getDowntimeIntervals history machines workHours None now in
  let grouped := paretoGrouped ivs in
  accumulate (paretoTotalDuration grouped) 0 (paretoSorted grouped).

(** *** generateAIInsights *)

(** The two number formatters of the language used by the templates:
    [x.toFixed(1)] and the default conversion of a number to a string. *)
Variable toFixed1 : Q -> string.
Variable numberToString : Q -> string.

Definition doubleQuote : Ascii.ascii := Ascii.ascii_of_nat 34.

Definition criticalMessage (avgOEE : Q) : string :=
  "OEE Crítico: A média da frota está em " +:+ toFixed1 avgOEE
  +:+ "%. O padrão industrial busca > 85%.".

Definition bottleneckMessage (worstMachine : MachineMetrics) : string :=
  "Gargalo Identificado: " +:+ mm_machineName worstMachine
  +:+ " tem o pior desempenho (OEE: "
  +:+ numberToString (mm_oee worstMachine) +:+ "%).".

Definition topCauseMessage (topReason : ParetoItem) : string :=
  "Causa Principal: " +:+ String doubleQuote (pi_reason topReason)
  +:+ String doubleQuote " corresponde a maior perda de tempo.".

(** [metrics.reduce((acc, m) => acc + m.oee, 0) / (metrics.length || 1)]. *)
Definition avgOEE (metrics : list MachineMetrics) : Q :=
  let n := Z.of_nat (length metrics) in
  (fold_left (fun acc m => acc + mm_oee m) metrics 0
   / inject_Z (if (n =? 0)%Z then 1%Z else n))%Q.

(** The comparator [(a, b) => a.oee - b.oee]. *)
Definition oeeLe (a b : MachineMetrics) : bool :=
  Qle_bool (mm_oee a - mm_oee b)%Q 0%Q.

Definition worstMachine (metrics : list MachineMetrics) : option MachineMetrics :=
  head (arraySort oeeLe metrics).

Definition generateAIInsights (metrics : list MachineMetrics)
    (pareto : list ParetoItem) : list string :=
  let insights : list string := [] in
  let insights :=
    if Qltb (avgOEE metrics) 60%Q
    then insights ++ [criticalMessage (avgOEE metrics)]
    else insights in
  let insights :=
    match worstMachine metrics with
    | Some worst =>
        if Qltb (mm_oee worst) 70%Q
        then insights ++ [bottleneckMessage worst]
        else insights
    | None => insights
    end in
  let insights :=
    match pareto with
    | topReason :: _ => insights ++ [topCauseMessage topReason]
    | [] => insights
    end in
  insights.

(** *** calculateTimeTotals *)

(** The closure [sumDuration]: the durations of the intervals that end at
    or after [filterTime]. *)
Definition sumDuration (ivs : list Interval) (filterTime : Z) : Z :=
  fold_left (fun acc curr => acc + iv_duration curr)
            (List.filter (fun i => iv_end i >=? filterTime) ivs) 0.

Record TimeTotals : Type := {
  dailyMs : Z;
  weeklyMs : Z;
  monthlyMs : Z
}.

(** [startOfDay], [startOfWeek] and [startOfMonth] are the instants the
    function derives from the local calendar with the Date methods (today's
    midnight, the midnight of the last Sunday, the first of the month); they
    are arguments here. *)
Definition calculateTimeTotals (machines : list Machine)
    (history : list MachineHistoryLog) (workHours : WorkHoursConfig)
    (now startOfDay startOfWeek startOfMonth : Z) : TimeTotals :=
  let ivs := getDowntimeIntervals history machines workHours None now in
  {| dailyMs := sumDuration ivs startOfDay;
     weeklyMs := sumDuration ivs startOfWeek;
     monthlyMs := sumDuration ivs startOfMonth |}.

(** *** The dashboard page *)

(** The comparator [(a, b) => b.totalDowntimeMs - a.totalDowntimeMs]. *)
Definition downtimeGe (a b : MachineMetrics) : bool :=
  mm_totalDowntimeMs b - mm_totalDowntimeMs a <=? 0.

(** [[...fleetMetrics].sort(...).slice(0, 8)]. *)
Definition topDowntimeMachines (fleetMetrics : list MachineMetrics)
    : list MachineMetrics :=
  take 8 (arraySort downtimeGe fleetMetrics).

(** The three numbers [formatHours] prints; [%] is the remainder that takes
    the sign of the dividend, [Math.floor] rounds down. *)
Definition formatHoursParts (ms : Z) : Z * Z * Z :=
  let h := ms / 3600000 in
  let m := Z.rem ms 3600000 / 60000 in
  let s := Z.rem ms 60000 / 1000 in
  (h, m, s).

Definition formatHours (ms : Z) : string :=
  let '(h, m, s) := formatHoursParts ms in
  pretty h +:+ "h " +:+ pretty m +:+ "m " +:+ pretty s +:+ "s".

(** *** The TV page *)

(** [s.padStart(2, '0')]. *)
Definition padStart2 (s : string) : string :=
  match String.length s with
  | O => "00"
  | S O => "0" +:+ s
  | _ => s
  end.

Definition formatDurationParts (ms : Z) : Z * Z * Z :=
  let totalSeconds := ms / 1000 in
  let h := totalSeconds / 3600 in
  let m := Z.rem totalSeconds 3600 / 60 in
  let s := Z.rem totalSeconds 60 in
  (h, m, s).

(** [formatDuration]; its argument is a number here, so of the guard only
    [ms < 0] remains. *)
Definition formatDuration (ms : Z) : string :=
  if ms <? 0 then "00:00:00"
  else let '(h, m, s) := formatDurationParts ms in
       padStart2 (pretty h) +:+ ":" +:+ padStart2 (pretty m)
       +:+ ":" +:+ padStart2 (pretty s).

(** *** services/api.ts: the local fallback store *)

(** A stored machine: the snapshot the analytics reads together with the
    remaining fields of the record. *)
Record MachineRow : Type := {
  row_machine : Machine;
  row_reason : option string;
  row_notes : string;
  row_lastOperator : string
}.

(** The part of the stored document that the status update and the daily
    reset read and write. *)
Record MockStore : Type := {
  store_machines : list MachineRow;
  store_history : list MachineHistoryLog
}.

Definition rowId (row : MachineRow) : Z := m_id (row_machine row).

(** The mock branch of [api.updateStatus].  The three readings of the
    clock it takes are [nowClosed] (pricing the stoppage that ends),
    [nowUpdated] (the new [lastUpdated]) and [nowLogged] (the timestamp of
    the log entry).  The result is [None] when the machine is unknown. *)
Definition updateStatus (data : MockStore) (machineId : Z)
    (status : MachineStatus) (reason : option string)
    (notes operator : string) (workHours : WorkHoursConfig)
    (nowClosed nowUpdated nowLogged : Z)
    : option (MachineRow * MachineHistoryLog) * MockStore :=
  match List.find (fun m => rowId m =? machineId) (store_machines data) with
  | None => (None, data)
  | Some machine =>
      let old := row_machine machine in
      let newAccumulated :=
        match m_status old, status with
        | STOPPED, RUNNING =>
            m_accumulatedDowntimeMs old
            + calculateActiveDowntime (m_lastUpdated old) workHours nowClosed
        | _, _ => m_accumulatedDowntimeMs old
        end in
      let updatedMachine :=
        {| row_machine :=
             {| m_id := m_id old;
                m_name := m_name old;
                m_status := status;
                m_lastUpdated := nowUpdated;
                m_accumulatedDowntimeMs := newAccumulated;
                m_productionCount := m_productionCount old;
                m_scrapCount := m_scrapCount old;
                m_cycleTimeValue := m_cycleTimeValue old;
                m_cycleTimeUnit := m_cycleTimeUnit old |};
           row_reason := match status with RUNNING => None | STOPPED => reason end;
           row_notes := match status with RUNNING => EmptyString | STOPPED => notes end;
           row_lastOperator := operator |} in
      let newLog :=
        {| log_machineId := machineId;
           log_previousStatus := m_status old;
           log_newStatus := status;
           log_reason := match status with STOPPED => reason | RUNNING => None end;
           log_timestamp := nowLogged |} in
      (Some (updatedMachine, newLog),
       {| store_machines :=
            map (fun m => if rowId m =? machineId then updatedMachine else m)
                (store_machines data);
          store_history := store_history data ++ [newLog] |})
  end.

(** The mock branch of [api.resetDaily]. *)
Definition resetDaily (data : MockStore) (now : Z) : MockStore :=
  {| store_machines :=
       map (fun m =>
              {| row_machine :=
                   {| m_id := m_id (row_machine m);
                      m_name := m_name (row_machine m);
                      m_status := m_status (row_machine m);
                      m_lastUpdated := now;
                      m_accumulatedDowntimeMs := 0;
                      m_productionCount := 0;
                      m_scrapCount := 0;
                      m_cycleTimeValue := m_cycleTimeValue (row_machine m);
                      m_cycleTimeUnit := m_cycleTimeUnit (row_machine m) |};
                 row_reason := row_reason m;
                 row_notes := row_notes m;
                 row_lastOperator := row_lastOperator m |})
           (store_machines data);
     store_history := store_history data |}.

(** Sample rows of the store. *)
Definition sampleRow (id : Z) (st : MachineStatus) (lastUpdated acc : Z)
    : MachineRow :=
  {| row_machine :=
       {| m_id := id;
          m_name := "Modeladora";
          m_status := st;
          m_lastUpdated := lastUpdated;
          m_accumulatedDowntimeMs := acc;
          m_productionCount := 12;
          m_scrapCount := 1;
          m_cycleTimeValue := 30;
          m_cycleTimeUnit := SECONDS |};
     row_reason := match st with STOPPED => Some "Setup" | RUNNING => None end;
     row_notes := EmptyString;
     row_lastOperator := "Sistema" |}.

(** A store with a running machine 1 and a machine 2 stopped since 09:00
    with ten minutes of downtime already accumulated. *)
Definition sampleStore : MockStore :=
  {| store_machines :=
       [sampleRow 1 RUNNING (8 * oneHour) 0;
        sampleRow 2 STOPPED (9 * oneHour) 600000];
     store_history := [stopEvent 2 "Setup" (9 * oneHour)] |}.

(** *** Vocabulary of the properties *)

(** [i] pairs a "stopped" event of the log with a later "running" event of
    the same machine, and its duration is the raw difference of their
    instants. *)
Definition rawClosed (history : list MachineHistoryLog) (i : Interval) : Prop :=
  exists lstop lrun,
    lstop ∈ history /\ lrun ∈ history /\
    log_newStatus lstop = STOPPED /\ log_newStatus lrun = RUNNING /\
    log_machineId lstop = iv_machineId i /\
    log_machineId lrun = iv_machineId i /\
    iv_reason i = reasonOrDefault (log_reason lstop) /\
    iv_start i = log_timestamp lstop /\
    iv_end i = log_timestamp lrun /\
    iv_duration i = log_timestamp lrun - log_timestamp lstop.

(** Every open stoppage was opened by a "stopped" event of the log. *)
Definition openedBy (history : list MachineHistoryLog)
    (active : gmap Z ActiveStop) : Prop :=
  forall m open, active !! m = Some open ->
    exists lstop,
      lstop ∈ history /\ log_newStatus lstop = STOPPED /\
      log_machineId lstop = m /\
      as_start open = log_timestamp lstop /\
      as_reason open = reasonOrDefault (log_reason lstop).

(** The group recorded for a reason in [grouped], if any. *)
Definition groupOf (reason : string) (grouped : list (string * Group))
    : option Group :=
  snd <$> List.find (fun e => String.eqb (fst e) reason) grouped.

(** The intervals that carry a given reason, their number and the sum of
    their durations. *)
Definition withReason (reason : string) (ivs : list Interval)
    : list Interval :=
  List.filter (fun i => String.eqb (iv_reason i) reason) ivs.

Definition durationSum (ivs : list Interval) : Z :=
  fold_left (fun acc i => acc + iv_duration i) ivs 0.

(** The interval synthesized for a machine that is stopped in the snapshot
    while a stoppage is still open for it. *)
Definition liveInterval (workHours : WorkHoursConfig) (now : Z)
    (m : Machine) (open : ActiveStop) : Interval :=
  {| iv_machineId := m_id m;
     iv_reason := as_reason open;
     iv_start := as_start open;
     iv_end := now;
     iv_duration := calculateActiveDowntime (as_start open) workHours now |}.

Definition liveIntervals (workHours : WorkHoursConfig) (now : Z)
    (active : gmap Z ActiveStop) (machines : list Machine) : list Interval :=
  flat_map (fun m => match m_status m, active !! m_id m with
                     | STOPPED, Some open => [liveInterval workHours now m open]
                     | _, _ => []
                     end) machines.

(** * Properties *)

(** ** The stable sort *)

Section SortFacts.
Context {A : Type} (le : A -> A -> bool).

Let R : relation A := fun a b => le a b = true.

Lemma insertSorted_Permutation (x : A) (l : list A) :
  insertSorted le x l ≡ₚ x :: l.
Proof.
  induction l as [|y l IH]; simpl; [done|].
  destruct (le x y); [done|].
  rewrite IH. apply Permutation_swap.
Qed.

Lemma arraySort_Permutation (l : list A) : arraySort le l ≡ₚ l.
Proof.
  induction l as [|x l IH]; simpl; [done|].
  by rewrite insertSorted_Permutation, IH.
Qed.

Lemma arraySort_length (l : list A) : length (arraySort le l) = length l.
Proof. apply Permutation_length, arraySort_Permutation. Qed.

Hypothesis le_total : forall a b, le a b = false -> le b a = true.
Hypothesis le_trans : forall a b c, le a b = true -> le b c = true -> le a c = true.

Lemma insertSorted_StronglySorted (x : A) (l : list A) :
  StronglySorted R l -> StronglySorted R (insertSorted le x l).
Proof.
  induction 1 as [|y l Hl IH Hy]; simpl.
  - repeat constructor.
  - destruct (le x y) eqn:Hxy.
    + constructor; [by constructor|].
      constructor; [exact Hxy|].
      eapply Forall_impl; [exact Hy|].
      intros z Hz. by apply (le_trans x y z).
    + constructor; [exact IH|].
      rewrite insertSorted_Permutation.
      constructor; [by apply le_total | exact Hy].
Qed.

Lemma arraySort_StronglySorted (l : list A) : StronglySorted R (arraySort le l).
Proof.
  induction l as [|x l IH]; simpl; [constructor|].
  by apply insertSorted_StronglySorted.
Qed.

Lemma arraySort_sorted_id (l : list A) :
  StronglySorted R l -> arraySort le l = l.
Proof.
  induction 1 as [|x l Hl IH Hx]; simpl; [done|].
  rewrite IH. destruct Hx as [|y l' Hxy _]; simpl; [done|].
  unfold R in Hxy. by rewrite Hxy.
Qed.

End SortFacts.

Lemma StronglySorted_weaken {A : Type} (R1 R2 : relation A) (l : list A) :
  (forall a b, R1 a b -> R2 a b) -> StronglySorted R1 l -> StronglySorted R2 l.
Proof.
  intros HR. induction 1 as [|x l _ IH Hx]; constructor; [exact IH|].
  eapply Forall_impl; [exact Hx|]. intros y. apply HR.
Qed.

Lemma logLe_spec (a b : MachineHistoryLog) :
  logLe a b = true <-> log_timestamp a <= log_timestamp b.
Proof. unfold logLe. rewrite Z.leb_le. lia. Qed.

Lemma sortLogs_Permutation (history : list MachineHistoryLog) :
  sortLogs history ≡ₚ history.
Proof. apply arraySort_Permutation. Qed.

Lemma sortLogs_StronglySorted (history : list MachineHistoryLog) :
  StronglySorted (fun a b => log_timestamp a <= log_timestamp b)
                 (sortLogs history).
Proof.
  eapply StronglySorted_weaken; [|apply (arraySort_StronglySorted logLe)].
  - intros a b H. by apply logLe_spec.
  - intros a b H. apply logLe_spec. apply not_true_iff_false in H.
    rewrite logLe_spec in H. lia.
  - intros a b c. rewrite !logLe_spec. lia.
Qed.

(** ** The event replay *)

Lemma replay_app (fs : option Z) (l1 l2 : list MachineHistoryLog)
    (st : ReplayState) :
  replay fs (l1 ++ l2) st = replay fs l2 (replay fs l1 st).
Proof. apply fold_left_app. Qed.

Lemma fold_pushOpenInterval (workHours : WorkHoursConfig) (now : Z)
    (active : gmap Z ActiveStop) (machines : list Machine)
    (ivs : list Interval) :
  fold_left (pushOpenInterval workHours now active) machines ivs
  = ivs ++ liveIntervals workHours now active machines.
Proof.
  revert ivs. induction machines as [|m ms IH]; intros ivs; simpl.
  - by rewrite app_nil_r.
  - rewrite IH. unfold pushOpenInterval, liveInterval.
    destruct (m_status m); [done|].
    destruct (active !! m_id m); [|done].
    by rewrite <- app_assoc.
Qed.

Lemma getDowntimeIntervals_split (history : list MachineHistoryLog)
    (machines : list Machine) (workHours : WorkHoursConfig)
    (filterStart : option Z) (now : Z) :
  getDowntimeIntervals history machines workHours filterStart now
  = intervals (replay filterStart (sortLogs history) initialState)
    ++ liveIntervals workHours now
         (activeStops (replay filterStart (sortLogs history) initialState))
         machines.
Proof. unfold getDowntimeIntervals. apply fold_pushOpenInterval. Qed.

Lemma replayStep_provenance (history : list MachineHistoryLog)
    (fs : option Z) (st : ReplayState) (log : MachineHistoryLog) :
  log ∈ history ->
  Forall (rawClosed history) (intervals st) ->
  openedBy history (activeStops st) ->
  Forall (rawClosed history) (intervals (replayStep fs st log))
  /\ openedBy history (activeStops (replayStep fs st log)).
Proof.
  intros Hin Hivs Hopen. unfold replayStep.
  destruct (beforeFilter fs (log_timestamp log)); [done|].
  destruct (log_newStatus log) eqn:Hstatus; simpl.
  - destruct (activeStops st !! log_machineId log) as [open|] eqn:Hlook;
      [|done].
    simpl. split.
    + apply Forall_app. split; [exact Hivs|].
      constructor; [|constructor].
      destruct (Hopen _ _ Hlook) as (lstop & Hs & Hst & Hm & Hstart & Hreason).
      exists lstop, log. simpl. rewrite Hstart. by repeat split.
    + intros m open' Hm. apply lookup_delete_Some in Hm as [_ Hm].
      by apply Hopen.
  - split; [exact Hivs|].
    intros m open Hm. apply lookup_insert_Some in Hm as [[<- <-]|[_ Hm]].
    + by exists log.
    + by apply Hopen.
Qed.

Lemma replay_provenance (history : list MachineHistoryLog) (fs : option Z)
    (logs : list MachineHistoryLog) (st : ReplayState) :
  (forall l, l ∈ logs -> l ∈ history) ->
  Forall (rawClosed history) (intervals st) ->
  openedBy history (activeStops st) ->
  Forall (rawClosed history) (intervals (replay fs logs st))
  /\ openedBy history (activeStops (replay fs logs st)).
Proof.
  revert st. induction logs as [|l logs IH]; intros st Hsub Hivs Hopen; simpl.
  - done.
  - destruct (replayStep_provenance history fs st l) as [H1 H2]; try done.
    { apply Hsub. by left. }
    apply IH; try done. intros l' Hl'. apply Hsub. by right.
Qed.


(** C6: a "stopped" event for a machine that already has an open stoppage
    emits no interval, replaces the open record of that machine by the new
    start and reason (the map holds one record per machine), leaves the
    other machines alone, and the earlier stoppage is forgotten: the state
    reached, and with it every interval returned after any further replay,
    is the one reached had the earlier stoppage never been open.  The step
    is a total function, so no error is raised. *)
Theorem stop_overwrites_open_stoppage (fs : option Z) (st : ReplayState)
    (log : MachineHistoryLog) (old : ActiveStop) :
  beforeFilter fs (log_timestamp log) = false ->
  log_newStatus log = STOPPED ->
  activeStops st !! log_machineId log = Some old ->
  let st' := replayStep fs st log in
  let forgotten :=
    {| intervals := intervals st;
       activeStops := delete (log_machineId log) (activeStops st) |} in
  intervals st' = intervals st
  /\ activeStops st' !! log_machineId log
     = Some {| as_start := log_timestamp log;
               as_reason := reasonOrDefault (log_reason log) |}
  /\ (forall m, m <> log_machineId log ->
        activeStops st' !! m = activeStops st !! m)
  /\ st' = replayStep fs forgotten log
  /\ forall rest machines workHours now,
       let final := replay fs rest st' in
       let final0 := replay fs (log :: rest) forgotten in
       fold_left (pushOpenInterval workHours now (activeStops final))
                 machines (intervals final)
       = fold_left (pushOpenInterval workHours now (activeStops final0))
                   machines (intervals final0).
Proof.
  intros Hfilter Hstatus Hold st' forgotten.
  assert (Heq : st' = replayStep fs forgotten log).
  { unfold st', forgotten, replayStep. rewrite Hfilter, Hstatus. simpl.
    f_equal. by rewrite insert_delete_eq. }
  assert (Hst : st' = {| intervals := intervals st;
                         activeStops :=
                           <[log_machineId log :=
                               {| as_start := log_timestamp log;
                                  as_reason := reasonOrDefault (log_reason log) |}]>
                             (activeStops st) |}).
  { unfold st', replayStep. by rewrite Hfilter, Hstatus. }
  repeat split.
  - by rewrite Hst.
  - rewrite Hst. simpl. by rewrite lookup_insert_eq.
  - intros m Hm. rewrite Hst. simpl. by rewrite lookup_insert_ne.
  - exact Heq.
  - intros rest machines workHours now. simpl. by rewrite Heq.
Qed.

Lemma liveIntervals_closed_machine (workHours : WorkHoursConfig) (now : Z)
    (active : gmap Z ActiveStop) (machines : list Machine) :
  (forall m, m ∈ machines -> active !! m_id m = None) ->
  liveIntervals workHours now active machines = [].
Proof.
  induction machines as [|m ms IH]; intros Hnone; simpl; [done|].
  rewrite (Hnone m) by (by left).
  rewrite IH by (intros m' Hm'; apply Hnone; by right).
  by destruct (m_status m).
Qed.

(** Two stops in a row followed by a restart: only the second stoppage
    becomes an interval. *)
Example double_stop_keeps_last (m : Z) (r1 r2 : string) (t1 t2 t3 : Z)
    (machines : list Machine) (workHours : WorkHoursConfig) (now : Z) :
  t1 <= t2 -> t2 <= t3 ->
  getDowntimeIntervals [stopEvent m r1 t1; stopEvent m r2 t2; runEvent m t3]
                       machines workHours None now
  = [{| iv_machineId := m;
        iv_reason := reasonOrDefault (Some r2);
        iv_start := t2;
        iv_end := t3;
        iv_duration := t3 - t2 |}].
Proof.
  intros H12 H23. rewrite getDowntimeIntervals_split.
  unfold sortLogs.
  rewrite (arraySort_sorted_id logLe).
  2:{ repeat constructor; apply logLe_spec; simpl; lia. }
  unfold replay, replayStep. simpl.
  rewrite insert_insert_eq, lookup_insert_eq. simpl.
  rewrite delete_insert_eq, delete_empty.
  rewrite liveIntervals_closed_machine; [done|].
  intros; apply lookup_empty.
Qed.

(** ** Independence of the storage order *)

Lemma NoDup_map_inj {A B : Type} (f : A -> B) (l : list A) (x y : A) :
  NoDup (map f l) -> x ∈ l -> y ∈ l -> f x = f y -> x = y.
Proof.
  induction l as [|a l IH]; simpl; intros Hnd Hx Hy Hf.
  - by apply elem_of_nil in Hx.
  - apply NoDup_cons in Hnd as [Ha Hnd].
    apply elem_of_cons in Hx as [->|Hx]; apply elem_of_cons in Hy as [->|Hy].
    + done.
    + exfalso. apply Ha. rewrite Hf. by apply (list_elem_of_fmap_2 f).
    + exfalso. apply Ha. rewrite <- Hf. by apply (list_elem_of_fmap_2 f).
    + by apply IH.
Qed.

Lemma sortLogs_Permutation_eq (history history' : list MachineHistoryLog) :
  NoDup (map log_timestamp history) ->
  history ≡ₚ history' ->
  sortLogs history' = sortLogs history.
Proof.
  intros Hnd Hperm.
  apply (StronglySorted_unique_strong
           (fun a b => log_timestamp a <= log_timestamp b)).
  - intros x1 x2 H1 H2 H12 H21.
    rewrite (sortLogs_Permutation history'), <- Hperm in H1.
    rewrite (sortLogs_Permutation history) in H2.
    apply (NoDup_map_inj log_timestamp history); [done..|lia].
  - apply sortLogs_StronglySorted.
  - apply sortLogs_StronglySorted.
  - by rewrite !sortLogs_Permutation.
Qed.

(** When all timestamps of the log are pairwise distinct, reconstructing
    from any permutation of the log yields the same list. *)
Lemma reconstruction_same_list
    (history history' : list MachineHistoryLog) (machines : list Machine)
    (workHours : WorkHoursConfig) (filterStart : option Z) (now : Z) :
  NoDup (map log_timestamp history) ->
  history ≡ₚ history' ->
  getDowntimeIntervals history' machines workHours filterStart now
  = getDowntimeIntervals history machines workHours filterStart now.
Proof.
  intros Hnd Hperm. unfold getDowntimeIntervals.
  by rewrite (sortLogs_Permutation_eq history history').
Qed.

(** ** Rounding and clamping *)

#[local] Instance mathRound_proper : Proper (Qeq ==> eq) mathRound.
Proof. intros x y Hxy. unfold mathRound. by rewrite Hxy. Qed.

#[local] Instance round1_proper : Proper (Qeq ==> Qeq) round1.
Proof. intros x y Hxy. unfold round1. by rewrite Hxy. Qed.

Lemma mathRound_mono (x y : Q) : (x <= y)%Q -> mathRound x <= mathRound y.
Proof.
  intros Hxy. unfold mathRound. apply Qfloor_resp_le.
  by apply Qplus_le_l.
Qed.

Lemma mathRound_inject_Z (z : Z) : mathRound (inject_Z z) = z.
Proof.
  unfold mathRound. apply Z.le_antisymm.
  - apply Z.lt_succ_r. rewrite Zlt_Qlt.
    eapply Qle_lt_trans; [apply Qfloor_le|].
    unfold Z.succ. rewrite inject_Z_plus.
    apply Qplus_lt_r. reflexivity.
  - rewrite <- (Qfloor_Z z) at 1. apply Qfloor_resp_le.
    rewrite <- (Qplus_0_r (inject_Z z)) at 1.
    apply Qplus_le_r. discriminate.
Qed.

Lemma clampPercent_range (x : Q) : (0 <= clampPercent x <= 100)%Q.
Proof.
  unfold clampPercent. split.
  - apply Q.min_glb; [discriminate | apply Q.le_max_l].
  - apply Q.le_min_l.
Qed.

Lemma clampPercent_id (x : Q) : (0 <= x <= 100)%Q -> (clampPercent x == x)%Q.
Proof.
  intros [H0 H100]. unfold clampPercent.
  rewrite (Q.max_r 0 x) by exact H0. by apply Q.min_r.
Qed.

Lemma round1_range (x : Q) : (0 <= x <= 100)%Q -> (0 <= round1 x <= 100)%Q.
Proof.
  intros [H0 H100]. unfold round1.
  assert (Hlo : mathRound (inject_Z 0) <= mathRound (x * 10)).
  { apply mathRound_mono. change (inject_Z 0) with (0 * 10)%Q.
    apply Qmult_le_compat_r; [exact H0 | discriminate]. }
  assert (Hhi : mathRound (x * 10) <= mathRound (inject_Z 1000)).
  { apply mathRound_mono. change (inject_Z 1000) with (100 * 10)%Q.
    apply Qmult_le_compat_r; [exact H100 | discriminate]. }
  rewrite mathRound_inject_Z in Hlo, Hhi.
  rewrite Zle_Qle in Hlo, Hhi.
  split.
  - apply Qle_shift_div_l; [reflexivity|]. exact Hlo.
  - apply Qle_shift_div_r; [reflexivity|]. exact Hhi.
Qed.

(** ** Fleet metrics *)

(** C8: the metrics array has one entry per machine snapshot, in the order
    of the input: its i-th entry is the metrics record of the i-th machine
    and carries that machine's id and name; an empty collection of
    snapshots yields an empty array. *)
Theorem one_metrics_entry_per_machine (machines : list Machine)
    (history : list MachineHistoryLog) (workHours : WorkHoursConfig)
    (now : Z) :
  let out := calculateFleetMetrics machines history workHours now in
  let ivs := getDowntimeIntervals history machines workHours None now in
  length out = length machines
  /\ map mm_machineId out = map m_id machines
  /\ map mm_machineName out = map m_name machines
  /\ (forall i : nat,
        out !! i = machineMetrics ivs workHours now <$> machines !! i)
  /\ calculateFleetMetrics [] history workHours now = [].
Proof.
  intros out ivs. unfold out, calculateFleetMetrics. fold ivs.
  repeat split.
  - apply length_map.
  - rewrite map_map. reflexivity.
  - rewrite map_map. reflexivity.
  - intros i. apply list_lookup_fmap.
Qed.

(** C7: a running machine with a cycle time of 30 seconds, one hour of
    shift elapsed, no downtime today, 100 good units and 5 scrapped has a
    theoretical maximum of 120 units, and its entry in the metrics array
    reports Availability 100, Performance 87.5, Quality 95.2 and OEE
    83.3. *)
Theorem worked_oee_example (machines : list Machine)
    (history : list MachineHistoryLog) (workHours : WorkHoursConfig)
    (now : Z) (machine : Machine) :
  machine ∈ machines ->
  m_status machine = RUNNING ->
  m_cycleTimeValue machine = 30%Q ->
  m_cycleTimeUnit machine = SECONDS ->
  getElapsedShiftTimeTodayMs workHours now = 3600000 ->
  m_accumulatedDowntimeMs machine = 0 ->
  m_productionCount machine = 100 ->
  m_scrapCount machine = 5 ->
  (theoreticalMaxProduction workHours now machine == 120)%Q
  /\ exists mt,
       mt ∈ calculateFleetMetrics machines history workHours now
       /\ mm_machineId mt = m_id machine
       /\ (mm_availability mt == 100)%Q
       /\ (mm_performance mt == 87.5)%Q
       /\ (mm_quality mt == 95.2)%Q
       /\ (mm_oee mt == 83.3)%Q.
Proof.
  intros Hin Hst Hval Hunit Hplanned Hacc Hgood Hscrap.
  assert (Hrun : runTimeMs workHours now machine = 3600000).
  { unfold runTimeMs, downtimeTodayMs, currentStopDuration.
    rewrite Hst, Hacc, Hplanned. reflexivity. }
  assert (Hmax : theoreticalMaxProduction workHours now machine
                 = (inject_Z 3600000 / 1000 / 30)%Q).
  { unfold theoreticalMaxProduction. rewrite Hrun, Hval, Hunit. reflexivity. }
  assert (Hav : availability workHours now machine
                = (inject_Z 3600000 / inject_Z 3600000 * 100)%Q).
  { unfold availability. rewrite Hrun, Hplanned. reflexivity. }
  assert (Hperf : performance workHours now machine
                  = (inject_Z 105 / (inject_Z 3600000 / 1000 / 30) * 100)%Q).
  { unfold performance, totalProduced. rewrite Hmax, Hgood, Hscrap.
    reflexivity. }
  assert (Hq : quality machine = (inject_Z 100 / inject_Z 105 * 100)%Q).
  { unfold quality, totalProduced. rewrite Hgood, Hscrap. reflexivity. }
  split; [by rewrite Hmax|].
  exists (machineMetrics
            (getDowntimeIntervals history machines workHours None now)
            workHours now machine).
  split.
  { unfold calculateFleetMetrics. by apply (list_elem_of_fmap_2 _). }
  unfold machineMetrics, oee. simpl.
  rewrite Hav, Hperf, Hq. by vm_compute.
Qed.

Lemma mttr_mtbf_formulas (total count : Z) :
  (0 < count ->
     (mttrMinutes total count
      == inject_Z total / inject_Z count / 60000)%Q
     /\ (mtbfHours total count
         == inject_Z (THIRTY_DAYS_MS - total) / inject_Z count / 3600000)%Q)
  /\ (count <= 0 ->
        mttrMinutes total count = 0%Q
        /\ (mtbfHours total count
            == inject_Z (THIRTY_DAYS_MS - total) / 3600000)%Q).
Proof.
  unfold mttrMinutes, mtbfHours, uptimeHistorical. split; intros Hc.
  - apply Z.ltb_lt in Hc as Hb. rewrite Hb.
    assert (Hnz : ~ (inject_Z count == 0)%Q).
    { change 0%Q with (inject_Z 0). rewrite inject_Z_injective. lia. }
    split; by field.
  - apply Z.ltb_ge in Hc as Hb. rewrite Hb. split; [done|]. by field.
Qed.

Lemma unit_fraction_product (a p q : Q) :
  (0 <= a <= 100)%Q -> (0 <= p <= 100)%Q -> (0 <= q <= 100)%Q ->
  (0 <= a / 100 * (p / 100) * (q / 100) * 100 <= 100)%Q.
Proof.
  intros [Ha0 Ha1] [Hp0 Hp1] [Hq0 Hq1].
  assert (Hunit : forall x : Q, (0 <= x)%Q -> (x <= 100)%Q ->
                                (0 <= x / 100 <= 1)%Q).
  { intros x H0 H1. split.
    - apply Qle_shift_div_l; [reflexivity|]. by rewrite Qmult_0_l.
    - apply Qle_shift_div_r; [reflexivity|]. by rewrite Qmult_1_l. }
  destruct (Hunit a Ha0 Ha1) as [Ha0' Ha1'].
  destruct (Hunit p Hp0 Hp1) as [Hp0' Hp1'].
  destruct (Hunit q Hq0 Hq1) as [Hq0' Hq1'].
  set (a' := (a / 100)%Q) in *. set (p' := (p / 100)%Q) in *.
  set (q' := (q / 100)%Q) in *.
  assert (Hap0 : (0 <= a' * p')%Q) by (by apply Qmult_le_0_compat).
  assert (Hap1 : (a' * p' <= 1)%Q).
  { apply (Qle_trans _ (1 * 1)%Q); [|discriminate].
    by apply Qmult_le_compat_nonneg. }
  assert (Hapq0 : (0 <= a' * p' * q')%Q) by (by apply Qmult_le_0_compat).
  assert (Hapq1 : (a' * p' * q' <= 1)%Q).
  { apply (Qle_trans _ (1 * 1)%Q); [|discriminate].
    by apply Qmult_le_compat_nonneg. }
  split.
  - apply Qmult_le_0_compat; [exact Hapq0 | discriminate].
  - apply (Qle_trans _ (1 * 100)%Q); [|discriminate].
    apply Qmult_le_compat_r; [exact Hapq1 | discriminate].
Qed.


Lemma mathRound_close (y : Q) :
  (y - (1 # 2) < inject_Z (mathRound y) <= y + (1 # 2))%Q.
Proof.
  unfold mathRound. split.
  - pose proof (Qlt_floor (y + (1 # 2))) as H.
    rewrite inject_Z_plus in H. change (inject_Z 1) with 1%Q in H. lra.
  - apply Qfloor_le.
Qed.

Lemma round1_close (x : Q) :
  (x - (1 # 20) <= round1 x <= x + (1 # 20))%Q.
Proof.
  unfold round1. destruct (mathRound_close (x * 10)) as [Hlo Hhi].
  revert Hlo Hhi. generalize (inject_Z (mathRound (x * 10))) as n.
  intros n Hlo Hhi. split.
  - apply Qle_shift_div_l; [reflexivity|]. lra.
  - apply Qle_shift_div_r; [reflexivity|]. lra.
Qed.

Lemma product_term_bound (d u v w : Q) :
  (- d <= u <= d)%Q -> (0 <= v <= 1)%Q -> (0 <= w <= 1)%Q ->
  (- d <= u * v * w <= d)%Q.
Proof.
  intros [Hu1 Hu2] [Hv0 Hv1] [Hw0 Hw1].
  assert (Hvw0 : (0 <= v * w)%Q) by (by apply Qmult_le_0_compat).
  assert (Hvw1 : (v * w <= 1)%Q).
  { apply (Qle_trans _ (1 * 1)%Q); [|discriminate].
    by apply Qmult_le_compat_nonneg. }
  rewrite <- Qmult_assoc. revert Hvw0 Hvw1. generalize (v * w)%Q as k.
  intros k Hk0 Hk1.
  assert (Hd : (0 <= d)%Q) by lra.
  split.
  - assert (H1 : (0 <= (u + d) * k)%Q)
      by (apply Qmult_le_0_compat; lra).
    assert (H2 : (0 <= d * (1 - k))%Q)
      by (apply Qmult_le_0_compat; lra).
    lra.
  - assert (H1 : (0 <= (d - u) * k)%Q)
      by (apply Qmult_le_0_compat; lra).
    assert (H2 : (0 <= d * (1 - k))%Q)
      by (apply Qmult_le_0_compat; lra).
    lra.
Qed.

Lemma rounded_product_close (a p q a' p' q' : Q) :
  (0 <= a <= 100)%Q -> (0 <= p <= 100)%Q -> (0 <= q <= 100)%Q ->
  (0 <= a' <= 100)%Q -> (0 <= p' <= 100)%Q -> (0 <= q' <= 100)%Q ->
  (a - (1 # 20) <= a' <= a + (1 # 20))%Q ->
  (p - (1 # 20) <= p' <= p + (1 # 20))%Q ->
  (q - (1 # 20) <= q' <= q + (1 # 20))%Q ->
  (a / 100 * (p / 100) * (q / 100) * 100 - (3 # 20)
   <= a' / 100 * (p' / 100) * (q' / 100) * 100
   <= a / 100 * (p / 100) * (q / 100) * 100 + (3 # 20))%Q.
Proof.
  intros Ha Hp Hq Ha' Hp' Hq' Hda Hdp Hdq.
  assert (Hunit : forall x : Q, (0 <= x <= 100)%Q -> (0 <= x / 100 <= 1)%Q).
  { intros x [H0 H1]. split.
    - apply Qle_shift_div_l; [reflexivity|]. lra.
    - apply Qle_shift_div_r; [reflexivity|]. lra. }
  assert (Hdiff : forall x x' : Q,
            (x - (1 # 20) <= x' <= x + (1 # 20))%Q ->
            (- (1 # 2000) <= x' / 100 - x / 100 <= 1 # 2000)%Q).
  { intros x x' [H0 H1]. unfold Qdiv.
    change (/ 100)%Q with (1 # 100)%Q. split; lra. }
  pose proof (Hunit a Ha) as Hua. pose proof (Hunit p Hp) as Hup.
  pose proof (Hunit q Hq) as Huq. pose proof (Hunit a' Ha') as Hua'.
  pose proof (Hunit p' Hp') as Hup'. pose proof (Hunit q' Hq') as Huq'.
  pose proof (Hdiff a a' Hda) as Hxa. pose proof (Hdiff p p' Hdp) as Hxp.
  pose proof (Hdiff q q' Hdq) as Hxq.
  revert Hua Hup Huq Hua' Hup' Huq' Hxa Hxp Hxq.
  generalize (a / 100)%Q as x. generalize (p / 100)%Q as y.
  generalize (q / 100)%Q as z. generalize (a' / 100)%Q as x'.
  generalize (p' / 100)%Q as y'. generalize (q' / 100)%Q as z'.
  intros z' y' x' z y x Hx Hy Hz Hx' Hy' Hz' Hxa Hxp Hxq.
  pose proof (product_term_bound (1 # 2000) (x' - x) y' z' Hxa Hy' Hz') as H1.
  assert (Hordered : (- (1 # 2000) <= (y' - y) * x * z' <= 1 # 2000)%Q)
    by (by apply product_term_bound).
  assert (Hlast : (- (1 # 2000) <= (z' - z) * x * y <= 1 # 2000)%Q)
    by (by apply product_term_bound).
  assert (Hsplit : (x' * y' * z' - x * y * z
                    == (x' - x) * y' * z' + (y' - y) * x * z'
                       + (z' - z) * x * y)%Q) by ring.
  split; lra.
Qed.

(** C2, amended: for every machine whose unrounded Availability,
    Performance and Quality lie between 0 and 100, so that no clamp acts,
    the reported OEE is computed from the unrounded components: it lies
    within 0.05 of Availability/100 * Performance/100 * Quality/100 * 100
    taken over them, and within 0.2 of round(Availability/100 *
    Performance/100 * Quality/100 * 100, 1) taken over the reported
    percentages; the two need not be equal. *)
Theorem oee_formula_within_tolerance (ivs : list Interval)
    (workHours : WorkHoursConfig) (now : Z) (machine : Machine) :
  (0 <= availability workHours now machine <= 100)%Q ->
  (0 <= performance workHours now machine <= 100)%Q ->
  (0 <= quality machine <= 100)%Q ->
  let mt := machineMetrics ivs workHours now machine in
  let unrounded :=
    (availability workHours now machine / 100
     * (performance workHours now machine / 100)
     * (quality machine / 100) * 100)%Q in
  let formula :=
    round1 (mm_availability mt / 100 * (mm_performance mt / 100)
            * (mm_quality mt / 100) * 100) in
  (unrounded - (1 # 20) <= mm_oee mt <= unrounded + (1 # 20))%Q
  /\ (formula - (2 # 10) <= mm_oee mt <= formula + (2 # 10))%Q.
Proof.
  intros Ha Hp Hq mt unrounded formula.
  set (a := availability workHours now machine) in *.
  set (p := performance workHours now machine) in *.
  set (q := quality machine) in *.
  assert (Hreported : forall x : Q, (0 <= x <= 100)%Q ->
            (clampPercent (round1 x) == round1 x)%Q
            /\ (0 <= round1 x <= 100)%Q
            /\ (x - (1 # 20) <= round1 x <= x + (1 # 20))%Q).
  { intros x Hx. pose proof (round1_range x Hx) as Hr.
    split; [by apply clampPercent_id|]. split; [exact Hr|].
    apply round1_close. }
  destruct (Hreported a Ha) as (Hea & Hra & Hca).
  destruct (Hreported p Hp) as (Hep & Hrp & Hcp).
  destruct (Hreported q Hq) as (Heq & Hrq & Hcq).
  assert (Hu : (0 <= unrounded <= 100)%Q)
    by (by apply unit_fraction_product).
  destruct (Hreported unrounded Hu) as (Heo & Hro & Hco).
  assert (Hoee : (mm_oee mt == round1 unrounded)%Q) by exact Heo.
  assert (Hformula : (formula
                      == round1 (round1 a / 100 * (round1 p / 100)
                                 * (round1 q / 100) * 100))%Q).
  { unfold formula, mt, machineMetrics. simpl.
    fold a p q. by rewrite Hea, Hep, Heq. }
  split; [rewrite Hoee; exact Hco|].
  pose proof (rounded_product_close a p q (round1 a) (round1 p) (round1 q)
                Ha Hp Hq Hra Hrp Hrq Hca Hcp Hcq) as Hclose.
  fold unrounded in Hclose.
  set (rounded := (round1 a / 100 * (round1 p / 100)
                   * (round1 q / 100) * 100)%Q) in *.
  pose proof (round1_close rounded) as Hcr.
  rewrite Hoee, Hformula.
  assert (Hquarter : (round1 rounded - (1 # 4) <= round1 unrounded
                      <= round1 rounded + (1 # 4))%Q) by (split; lra).
  unfold round1 in *.
  set (n := mathRound (unrounded * 10)) in *.
  set (m := mathRound (rounded * 10)) in *.
  assert (Hnm : m <= n + 2 /\ n <= m + 2).
  { destruct Hquarter as [H1 H2].
    unfold Qdiv in H1, H2. change (/ 10)%Q with (1 # 10)%Q in H1, H2.
    split; apply Z.lt_succ_r; rewrite Zlt_Qlt; unfold Z.succ;
      rewrite !inject_Z_plus;
      change (inject_Z 2) with 2%Q; change (inject_Z 1) with 1%Q; lra. }
  destruct Hnm as [Hn1 Hn2]. rewrite Zle_Qle in Hn1, Hn2.
  rewrite inject_Z_plus in Hn1, Hn2.
  change (inject_Z 2) with 2%Q in Hn1, Hn2.
  unfold Qdiv. change (/ 10)%Q with (1 # 10)%Q. split; lra.
Qed.

(** ** Durations are never negative *)

Lemma replay_durations_nonneg (fs : option Z)
    (logs : list MachineHistoryLog) (st : ReplayState) :
  StronglySorted (fun a b => log_timestamp a <= log_timestamp b) logs ->
  Forall (fun i => 0 <= iv_duration i) (intervals st) ->
  (forall m open l, activeStops st !! m = Some open -> l ∈ logs ->
                    as_start open <= log_timestamp l) ->
  Forall (fun i => 0 <= iv_duration i) (intervals (replay fs logs st)).
Proof.
  intros Hsorted. revert st.
  induction Hsorted as [|l rest Hrest IH Hl]; intros st Hivs Hopen; simpl.
  - exact Hivs.
  - rewrite Forall_forall in Hl. apply IH; unfold replayStep;
      destruct (beforeFilter fs (log_timestamp l)).
    + exact Hivs.
    + destruct (log_newStatus l); simpl; [|exact Hivs].
      destruct (activeStops st !! log_machineId l) as [open|] eqn:Hlook;
        [|exact Hivs].
      simpl. apply Forall_app. split; [exact Hivs|].
      constructor; [|constructor]. simpl.
      assert (as_start open <= log_timestamp l); [|lia].
      eapply Hopen; [exact Hlook | by left].
    + intros m open l' Hm Hl'. eapply Hopen; [exact Hm | by right].
    + intros m open l' Hm Hl'.
      destruct (log_newStatus l); simpl in Hm.
      * destruct (activeStops st !! log_machineId l) eqn:Hlook; simpl in Hm.
        -- apply lookup_delete_Some in Hm as [_ Hm].
           eapply Hopen; [exact Hm | by right].
        -- eapply Hopen; [exact Hm | by right].
      * apply lookup_insert_Some in Hm as [[_ <-]|[_ Hm]]; simpl.
        -- by apply Hl.
        -- eapply Hopen; [exact Hm | by right].
Qed.

Lemma getDowntimeIntervals_nonneg (history : list MachineHistoryLog)
    (machines : list Machine) (workHours : WorkHoursConfig)
    (filterStart : option Z) (now : Z) :
  (forall start config n, 0 <= calculateActiveDowntime start config n) ->
  Forall (fun i => 0 <= iv_duration i)
         (getDowntimeIntervals history machines workHours filterStart now).
Proof.
  intros Hclock. rewrite getDowntimeIntervals_split. apply Forall_app. split.
  - apply replay_durations_nonneg.
    + apply sortLogs_StronglySorted.
    + constructor.
    + intros m open l Hm. simpl in Hm. by rewrite lookup_empty in Hm.
  - unfold liveIntervals. apply Forall_flat_map, Forall_forall. intros m _.
    destruct (m_status m); [constructor|].
    destruct (_ !! m_id m); constructor; [apply Hclock | constructor].
Qed.

(** ** Pareto *)

Lemma addToGroup_nonneg (reason : string) (duration : Z)
    (grouped : list (string * Group)) :
  0 <= duration ->
  Forall (fun e => 0 <= g_duration (snd e)) grouped ->
  Forall (fun e => 0 <= g_duration (snd e)) (addToGroup reason duration grouped).
Proof.
  intros Hd. induction 1 as [|[k g] rest Hg Hrest IH]; simpl.
  - repeat constructor. simpl. lia.
  - destruct (String.eqb k reason); constructor; simpl in *; try done. lia.
Qed.

Lemma fold_groupStep_nonneg (ivs : list Interval)
    (grouped : list (string * Group)) :
  Forall (fun e => 0 <= g_duration (snd e)) grouped ->
  Forall (fun i => 0 <= iv_duration i) ivs ->
  Forall (fun e => 0 <= g_duration (snd e)) (fold_left groupStep ivs grouped).
Proof.
  revert grouped.
  induction ivs as [|i ivs IH]; intros grouped Hg Hivs; simpl; [done|].
  apply Forall_cons in Hivs as [Hi Hivs].
  apply IH; [|done]. by apply addToGroup_nonneg.
Qed.

Lemma filter_partition_Permutation {A : Type} (P : A -> bool) (l : list A) :
  List.filter P l ++ List.filter (fun x => negb (P x)) l ≡ₚ l.
Proof.
  induction l as [|x l IH]; simpl; [done|].
  destruct (P x); simpl.
  - by rewrite IH.
  - by rewrite <- Permutation_middle, IH.
Qed.

Lemma objectEntries_Permutation (grouped : list (string * Group)) :
  objectEntries grouped ≡ₚ grouped.
Proof.
  unfold objectEntries. rewrite arraySort_Permutation.
  apply (filter_partition_Permutation (fun e => isArrayIndex (fst e))).
Qed.

Lemma fold_left_sum_shift {A : Type} (f : A -> Z) (l : list A) (a : Z) :
  fold_left (fun acc x => acc + f x) l a
  = a + fold_left (fun acc x => acc + f x) l 0.
Proof.
  revert a. induction l as [|x l IH]; intros a; simpl; [lia|].
  rewrite (IH (a + f x)), (IH (0 + f x)). lia.
Qed.

Lemma fold_left_sum_Permutation {A : Type} (f : A -> Z) (l l' : list A) :
  l ≡ₚ l' ->
  forall a, fold_left (fun acc x => acc + f x) l a
            = fold_left (fun acc x => acc + f x) l' a.
Proof.
  induction 1 as [|x l l' _ IH|x y l|l l' l'' _ IH1 _ IH2]; intros a; simpl.
  - done.
  - apply IH.
  - f_equal. lia.
  - by rewrite IH1.
Qed.

Lemma paretoSorted_total (grouped : list (string * Group)) :
  fold_left (fun acc e => acc + pe_durationMs e) (paretoSorted grouped) 0
  = paretoTotalDuration grouped.
Proof.
  unfold paretoSorted, paretoTotalDuration.
  rewrite (fold_left_sum_Permutation pe_durationMs _ _
             (arraySort_Permutation paretoLe _)).
  generalize (objectEntries grouped) as es. generalize 0 as a.
  intros a es. revert a. induction es as [|e es IH]; intros a; simpl; [done|].
  apply IH.
Qed.

Lemma paretoSorted_nonneg (grouped : list (string * Group)) :
  Forall (fun e => 0 <= g_duration (snd e)) grouped ->
  Forall (fun e => 0 <= pe_durationMs e) (paretoSorted grouped).
Proof.
  intros Hg. unfold paretoSorted. rewrite arraySort_Permutation.
  apply Forall_map. rewrite objectEntries_Permutation.
  eapply Forall_impl; [exact Hg|]. by intros e He.
Qed.

Lemma percent_nonneg (duration total : Z) :
  0 <= duration ->
  (0 <= (if 0 <? total
         then inject_Z duration / inject_Z total * 100
         else 0))%Q.
Proof.
  intros Hd. destruct (0 <? total) eqn:Ht; [|discriminate].
  apply Z.ltb_lt in Ht.
  apply Qmult_le_0_compat; [|discriminate].
  apply Qle_shift_div_l.
  - change 0%Q with (inject_Z 0). by rewrite <- Zlt_Qlt.
  - rewrite Qmult_0_l. change 0%Q with (inject_Z 0). by rewrite <- Zle_Qle.
Qed.

Lemma accumulate_monotone (total : Z) (sorted : list ParetoEntry) (acc : Q) :
  Forall (fun e => 0 <= pe_durationMs e) sorted ->
  Forall (fun it => mathRound acc <= pi_accumulatedPercent it)
         (accumulate total acc sorted)
  /\ StronglySorted Z.le
       (map pi_accumulatedPercent (accumulate total acc sorted)).
Proof.
  intros Hs. revert acc.
  induction Hs as [|e rest He _ IH]; intros acc; simpl.
  - split; constructor.
  - set (acc' := (acc + _)%Q).
    assert (Hstep : mathRound acc <= mathRound acc').
    { apply mathRound_mono. unfold acc'.
      rewrite <- (Qplus_0_r acc) at 1. apply Qplus_le_r.
      by apply percent_nonneg. }
    destruct (IH acc') as [Hge Hsorted]. split.
    + constructor; [exact Hstep|].
      eapply Forall_impl; [exact Hge|]. simpl. intros it Hit. lia.
    + constructor; [exact Hsorted|]. by apply Forall_map.
Qed.



(** ** Insights *)

Lemma Qltb_lt (x y : Q) : Qltb x y = true <-> (x < y)%Q.
Proof.
  unfold Qltb. rewrite negb_true_iff, <- not_true_iff_false, Qle_bool_iff.
  split; [apply Qnot_le_lt | apply Qlt_not_le].
Qed.

Lemma oeeLe_spec (a b : MachineMetrics) :
  oeeLe a b = true <-> (mm_oee a <= mm_oee b)%Q.
Proof. unfold oeeLe. rewrite Qle_bool_iff. split; intros H; lra. Qed.

Lemma worstMachine_minimal (metrics : list MachineMetrics)
    (worst : MachineMetrics) :
  worstMachine metrics = Some worst ->
  worst ∈ metrics
  /\ forall m, m ∈ metrics -> (mm_oee worst <= mm_oee m)%Q.
Proof.
  unfold worstMachine. intros Hhead.
  pose proof (arraySort_Permutation oeeLe metrics) as Hperm.
  assert (Hsorted : StronglySorted (fun a b => oeeLe a b = true)
                                   (arraySort oeeLe metrics)).
  { apply arraySort_StronglySorted.
    - intros a b H. apply oeeLe_spec. apply not_true_iff_false in H.
      rewrite oeeLe_spec in H. lra.
    - intros a b c. rewrite !oeeLe_spec. lra. }
  destruct (arraySort oeeLe metrics) as [|w rest]; [done|].
  simpl in Hhead. injection Hhead as ->.
  apply StronglySorted_inv in Hsorted as [_ Hall].
  rewrite Forall_forall in Hall. split.
  - rewrite <- Hperm. by left.
  - intros m Hm. rewrite <- Hperm in Hm.
    apply elem_of_cons in Hm as [->|Hm]; [lra|].
    by apply oeeLe_spec, Hall.
Qed.

(** C9: the insight list is the concatenation, in this order, of at most
    one fleet-average message (average OEE below 60), at most one
    worst-machine message (the machine of least OEE, when that OEE is below
    70) and at most one top-cause message (present exactly when the Pareto
    list is not empty, naming its first item); so it has between 0 and 3
    entries. *)
Theorem insights_fixed_rule_order (metrics : list MachineMetrics)
    (pareto : list ParetoItem) :
  exists critical bottleneck topCause : list string,
    generateAIInsights metrics pareto = critical ++ bottleneck ++ topCause
    /\ critical = (if Qltb (avgOEE metrics) 60
                   then [criticalMessage (avgOEE metrics)] else [])
    /\ bottleneck = match worstMachine metrics with
                    | Some worst => if Qltb (mm_oee worst) 70
                                    then [bottleneckMessage worst] else []
                    | None => []
                    end
    /\ (forall worst, worstMachine metrics = Some worst ->
          worst ∈ metrics
          /\ forall m, m ∈ metrics -> (mm_oee worst <= mm_oee m)%Q)
    /\ topCause = match pareto with
                  | topReason :: _ => [topCauseMessage topReason]
                  | [] => []
                  end
    /\ (pareto <> [] <-> length topCause = 1%nat)
    /\ (length critical <= 1)%nat
    /\ (length bottleneck <= 1)%nat
    /\ (length topCause <= 1)%nat
    /\ (0 <= length (generateAIInsights metrics pareto) <= 3)%nat.
Proof.
  exists (if Qltb (avgOEE metrics) 60
          then [criticalMessage (avgOEE metrics)] else []),
         (match worstMachine metrics with
          | Some worst => if Qltb (mm_oee worst) 70
                          then [bottleneckMessage worst] else []
          | None => []
          end),
         (match pareto with
          | topReason :: _ => [topCauseMessage topReason]
          | [] => []
          end).
  split; [|split; [reflexivity|split; [reflexivity|]]].
  - unfold generateAIInsights.
    destruct (Qltb (avgOEE metrics) 60);
      destruct (worstMachine metrics) as [worst|];
      try destruct (Qltb (mm_oee worst) 70);
      destruct pareto; reflexivity.
  - split; [apply worstMachine_minimal|].
    split; [reflexivity|].
    unfold generateAIInsights.
    destruct (Qltb (avgOEE metrics) 60);
      destruct (worstMachine metrics) as [worst|];
      try destruct (Qltb (mm_oee worst) 70);
      destruct pareto; simpl; repeat split; try lia; try done.
Qed.

(** C10: with no metrics at all the fleet average is 0, which is below 60:
    the fleet-average message is emitted, there is no worst machine and so
    no worst-machine message, and the returned list is not empty. *)
Theorem insights_on_empty_metrics (pareto : list ParetoItem) :
  (avgOEE [] == 0)%Q
  /\ Qltb (avgOEE []) 60 = true
  /\ worstMachine [] = None
  /\ generateAIInsights [] pareto
     = criticalMessage (avgOEE [])
       :: match pareto with
          | topReason :: _ => [topCauseMessage topReason]
          | [] => []
          end
  /\ generateAIInsights [] pareto <> [].
Proof.
  repeat split; try reflexivity.
  - by destruct pareto.
  - by destruct pareto.
Qed.

(** * Further properties of the engine *)

(** ** Sorting and filtering commute *)

Section SortFilter.
Context {A : Type} (le : A -> A -> bool) (P : A -> bool).
Hypothesis le_trans :
  forall a b c, le a b = true -> le b c = true -> le a c = true.

Lemma insertSorted_filter_keep (x : A) (l : list A) :
  StronglySorted (fun a b => le a b = true) l ->
  P x = true ->
  List.filter P (insertSorted le x l) = insertSorted le x (List.filter P l).
Proof.
  intros Hsorted Hx.
  induction Hsorted as [|y l Hl IH Hy]; simpl.
  - by rewrite Hx.
  - destruct (le x y) eqn:Hxy; simpl.
    + rewrite Hx. destruct (P y) eqn:Hpy; simpl.
      * by rewrite Hxy.
      * assert (Hall : Forall (fun z => le x z = true) (List.filter P l)).
        { apply Forall_forall. intros z Hz.
          apply list_elem_of_In, filter_In in Hz as [Hz _].
          rewrite Forall_forall in Hy.
          apply (le_trans x y z); [exact Hxy|].
          by apply Hy, list_elem_of_In. }
        destruct Hall as [|z zs Hz _]; simpl; [done|]. by rewrite Hz.
    + destruct (P y); simpl; rewrite IH; [|done]. by rewrite Hxy.
Qed.

Lemma insertSorted_filter_drop (x : A) (l : list A) :
  P x = false ->
  List.filter P (insertSorted le x l) = List.filter P l.
Proof.
  intros Hx. induction l as [|y l IH]; simpl.
  - by rewrite Hx.
  - destruct (le x y); simpl.
    + by rewrite Hx.
    + by rewrite IH.
Qed.

Hypothesis le_total : forall a b, le a b = false -> le b a = true.

Lemma arraySort_filter (l : list A) :
  arraySort le (List.filter P l) = List.filter P (arraySort le l).
Proof.
  induction l as [|x l IH]; simpl; [done|].
  destruct (P x) eqn:Hx; simpl.
  - rewrite insertSorted_filter_keep, IH; try done.
    by apply arraySort_StronglySorted.
  - by rewrite insertSorted_filter_drop.
Qed.

End SortFilter.

Lemma sortLogs_filter (P : MachineHistoryLog -> bool)
    (history : list MachineHistoryLog) :
  sortLogs (List.filter P history) = List.filter P (sortLogs history).
Proof.
  apply arraySort_filter.
  - intros a b c. rewrite !logLe_spec. lia.
  - intros a b H. apply logLe_spec. apply not_true_iff_false in H.
    rewrite logLe_spec in H. lia.
Qed.

(** ** More on the event replay *)

Lemma replay_filterStart (f : Z) (logs : list MachineHistoryLog)
    (st : ReplayState) :
  replay (Some f) logs st
  = replay None (List.filter (fun l => negb (log_timestamp l <? f)) logs) st.
Proof.
  revert st. unfold replay.
  induction logs as [|l logs IH]; intros st; simpl; [done|].
  assert (Hstep : replayStep (Some f) st l
                  = if log_timestamp l <? f then st else replayStep None st l).
  { unfold replayStep, beforeFilter. by destruct (log_timestamp l <? f). }
  rewrite Hstep. destruct (log_timestamp l <? f); simpl; apply IH.
Qed.

(** X1: the optional lower bound only discards events: reconstructing with
    the bound [f] is reconstructing, without bound, from the events of the
    log that are not earlier than [f]. *)
Theorem filterStart_discards_earlier_events
    (history : list MachineHistoryLog) (machines : list Machine)
    (workHours : WorkHoursConfig) (f now : Z) :
  getDowntimeIntervals history machines workHours (Some f) now
  = getDowntimeIntervals
      (List.filter (fun l => negb (log_timestamp l <? f)) history)
      machines workHours None now.
Proof.
  unfold getDowntimeIntervals.
  by rewrite sortLogs_filter, replay_filterStart.
Qed.

Lemma reasonOrDefault_nonempty (r : option string) :
  reasonOrDefault r <> EmptyString.
Proof.
  unfold reasonOrDefault. destruct r as [s|]; [|done].
  destruct (String.eqb s EmptyString) eqn:Hs; [done|].
  by apply String.eqb_neq in Hs.
Qed.

Lemma getDowntimeIntervals_provenance (history : list MachineHistoryLog)
    (machines : list Machine) (workHours : WorkHoursConfig)
    (filterStart : option Z) (now : Z) :
  Forall (fun i => exists lstop,
            lstop ∈ history /\ log_newStatus lstop = STOPPED
            /\ log_machineId lstop = iv_machineId i
            /\ iv_start i = log_timestamp lstop
            /\ iv_reason i = reasonOrDefault (log_reason lstop))
         (getDowntimeIntervals history machines workHours filterStart now).
Proof.
  rewrite getDowntimeIntervals_split.
  destruct (replay_provenance history filterStart (sortLogs history)
              initialState) as [Hclosed Hopen].
  { intros l Hl. by rewrite <- (sortLogs_Permutation history). }
  { constructor. }
  { intros m open Hm. simpl in Hm. by rewrite lookup_empty in Hm. }
  apply Forall_app. split.
  - eapply Forall_impl; [exact Hclosed|]. intros i Hi.
    destruct Hi as (ls & lr & Hin & _ & Hs & _ & Hm & _ & Hr & Hst & _).
    by exists ls.
  - unfold liveIntervals. apply Forall_flat_map, Forall_forall. intros m _.
    destruct (m_status m); [constructor|].
    destruct (_ !! m_id m) as [open|] eqn:Hlook; [|constructor].
    constructor; [|constructor].
    destruct (Hopen _ _ Hlook) as (ls & Hin & Hs & Hm & Hst & Hr).
    by exists ls.
Qed.

(** X2: every interval returned, closed or live, starts at the instant of a
    "stopped" event of the log for the same machine and carries the reason
    of that event, or the default label when the event has none; in
    particular no interval has an empty reason. *)
Theorem intervals_start_at_stop_events (history : list MachineHistoryLog)
    (machines : list Machine) (workHours : WorkHoursConfig)
    (filterStart : option Z) (now : Z) (i : Interval) :
  i ∈ getDowntimeIntervals history machines workHours filterStart now ->
  iv_reason i <> EmptyString
  /\ exists lstop,
       lstop ∈ history /\ log_newStatus lstop = STOPPED
       /\ log_machineId lstop = iv_machineId i
       /\ iv_start i = log_timestamp lstop
       /\ iv_reason i = reasonOrDefault (log_reason lstop).
Proof.
  intros Hi.
  pose proof (getDowntimeIntervals_provenance history machines workHours
                filterStart now) as Hall.
  rewrite Forall_forall in Hall.
  destruct (Hall i Hi) as (ls & Hin & Hs & Hm & Hst & Hr).
  split; [rewrite Hr; apply reasonOrDefault_nonempty|].
  by exists ls.
Qed.

Lemma filter_none {A : Type} (P : A -> bool) (l : list A) :
  Forall (fun x => P x = false) l -> List.filter P l = [].
Proof.
  induction 1 as [|x l Hx _ IH]; simpl; [done|]. by rewrite Hx.
Qed.

(** X5: a machine for which the log holds no "stopped" event has no failure in
    its metrics entry: failureCount is 0, MTTR is 0 and MTBF is the whole
    thirty-day window, 720 hours. *)
Theorem machine_without_stop_events (machines : list Machine)
    (history : list MachineHistoryLog) (workHours : WorkHoursConfig)
    (now : Z) (k : nat) (machine : Machine) :
  machines !! k = Some machine ->
  (forall l, l ∈ history -> log_newStatus l = STOPPED ->
             log_machineId l <> m_id machine) ->
  exists mt,
    calculateFleetMetrics machines history workHours now !! k = Some mt
    /\ mm_failureCount mt = 0
    /\ mm_mttr mt = 0
    /\ (mm_mtbf mt == 720)%Q.
Proof.
  intros Hk Hnone.
  set (ivs := getDowntimeIntervals history machines workHours None now).
  exists (machineMetrics ivs workHours now machine). split.
  { unfold calculateFleetMetrics. fold ivs.
    change (map ?f ?l) with (f <$> l). by rewrite list_lookup_fmap, Hk. }
  assert (Hmine : machineIntervalsAll ivs machine = []).
  { unfold machineIntervalsAll. apply filter_none.
    eapply Forall_impl; [apply getDowntimeIntervals_provenance|].
    intros i (ls & Hin & Hs & Hm & _). simpl.
    apply Z.eqb_neq. rewrite <- Hm. by apply Hnone. }
  unfold machineMetrics. rewrite Hmine. simpl. by vm_compute.
Qed.

(** ** A machine's figures depend on its own events only *)

Lemma replayStep_other_machine (mid : Z) (fs : option Z) (st : ReplayState)
    (l : MachineHistoryLog) :
  log_machineId l <> mid ->
  List.filter (fun i => iv_machineId i =? mid) (intervals (replayStep fs st l))
  = List.filter (fun i => iv_machineId i =? mid) (intervals st)
  /\ activeStops (replayStep fs st l) !! mid = activeStops st !! mid.
Proof.
  intros Hne. unfold replayStep.
  destruct (beforeFilter fs (log_timestamp l)); [done|].
  destruct (log_newStatus l); simpl.
  - destruct (activeStops st !! log_machineId l) as [open|]; [|done]. simpl.
    rewrite List.filter_app. simpl.
    rewrite (proj2 (Z.eqb_neq _ _) Hne), app_nil_r.
    split; [done|]. by apply lookup_delete_ne.
  - split; [done|]. by apply lookup_insert_ne.
Qed.

Lemma replayStep_same_machine (mid : Z) (fs : option Z)
    (st st' : ReplayState) (l : MachineHistoryLog) :
  log_machineId l = mid ->
  List.filter (fun i => iv_machineId i =? mid) (intervals st)
  = List.filter (fun i => iv_machineId i =? mid) (intervals st') ->
  activeStops st !! mid = activeStops st' !! mid ->
  List.filter (fun i => iv_machineId i =? mid) (intervals (replayStep fs st l))
  = List.filter (fun i => iv_machineId i =? mid)
                (intervals (replayStep fs st' l))
  /\ activeStops (replayStep fs st l) !! mid
     = activeStops (replayStep fs st' l) !! mid.
Proof.
  intros Hmid Hivs Hopen. unfold replayStep.
  destruct (beforeFilter fs (log_timestamp l)); [done|].
  destruct (log_newStatus l); simpl.
  - rewrite Hmid, <- Hopen.
    destruct (activeStops st !! mid) as [open|] eqn:Hlook; simpl.
    + rewrite !List.filter_app, Hivs. split; [done|].
      by rewrite !lookup_delete_eq.
    + split; [exact Hivs | congruence].
  - split; [done|]. by rewrite Hmid, !lookup_insert_eq.
Qed.

Lemma replay_own_events (mid : Z) (fs : option Z)
    (logs : list MachineHistoryLog) (st st' : ReplayState) :
  List.filter (fun i => iv_machineId i =? mid) (intervals st)
  = List.filter (fun i => iv_machineId i =? mid) (intervals st') ->
  activeStops st !! mid = activeStops st' !! mid ->
  let own := List.filter (fun l => log_machineId l =? mid) logs in
  List.filter (fun i => iv_machineId i =? mid) (intervals (replay fs logs st))
  = List.filter (fun i => iv_machineId i =? mid)
                (intervals (replay fs own st'))
  /\ activeStops (replay fs logs st) !! mid
     = activeStops (replay fs own st') !! mid.
Proof.
  revert st st'. unfold replay.
  induction logs as [|l logs IH]; intros st st' Hivs Hopen; simpl; [done|].
  destruct (log_machineId l =? mid) eqn:Hl; simpl.
  - apply Z.eqb_eq in Hl.
    destruct (replayStep_same_machine mid fs st st' l Hl Hivs Hopen).
    by apply IH.
  - apply Z.eqb_neq in Hl.
    destruct (replayStep_other_machine mid fs st l Hl) as [H1 H2].
    apply IH; congruence.
Qed.

Lemma liveIntervals_own_stop (mid : Z) (workHours : WorkHoursConfig)
    (now : Z) (active active' : gmap Z ActiveStop) (machines : list Machine) :
  active !! mid = active' !! mid ->
  List.filter (fun i => iv_machineId i =? mid)
              (liveIntervals workHours now active machines)
  = List.filter (fun i => iv_machineId i =? mid)
                (liveIntervals workHours now active' machines).
Proof.
  intros Hopen. unfold liveIntervals.
  induction machines as [|m ms IH]; simpl; [done|].
  rewrite !List.filter_app, IH. f_equal.
  destruct (decide (m_id m = mid)) as [->|Hne].
  - by rewrite Hopen.
  - apply Z.eqb_neq in Hne.
    destruct (m_status m); [done|].
    destruct (active !! m_id m), (active' !! m_id m); simpl;
      by rewrite ?Hne.
Qed.

(** X6: the metrics entry of a machine depends only on the events of the log
    that carry its id: deleting all other events, for instance those of
    machines absent from the snapshot, leaves the entry unchanged. *)
Theorem metrics_depend_on_own_events (machines : list Machine)
    (history : list MachineHistoryLog) (workHours : WorkHoursConfig)
    (now : Z) (k : nat) (machine : Machine) :
  machines !! k = Some machine ->
  let own := List.filter (fun l => log_machineId l =? m_id machine) history in
  calculateFleetMetrics machines history workHours now !! k
  = calculateFleetMetrics machines own workHours now !! k.
Proof.
  intros Hk own. unfold calculateFleetMetrics.
  change (map ?f ?l) with (f <$> l). rewrite !list_lookup_fmap, Hk. simpl.
  f_equal. unfold machineMetrics.
  assert (Hmine :
    machineIntervalsAll
      (getDowntimeIntervals history machines workHours None now) machine
    = machineIntervalsAll
        (getDowntimeIntervals own machines workHours None now) machine).
  { unfold machineIntervalsAll. rewrite !getDowntimeIntervals_split.
    unfold own. rewrite sortLogs_filter.
    destruct (replay_own_events (m_id machine) None (sortLogs history)
                initialState initialState eq_refl eq_refl) as [Hivs Hopen].
    rewrite !List.filter_app. f_equal; [exact Hivs|].
    by apply liveIntervals_own_stop. }
  by rewrite Hmine.
Qed.

(** ** Closing and synthesizing intervals, end to end *)

Lemma replayStep_intervals_grow (fs : option Z) (st : ReplayState)
    (l : MachineHistoryLog) (i : Interval) :
  i ∈ intervals st -> i ∈ intervals (replayStep fs st l).
Proof.
  intros Hi. unfold replayStep.
  destruct (beforeFilter fs (log_timestamp l)); [done|].
  destruct (log_newStatus l); simpl; [|done].
  destruct (activeStops st !! log_machineId l); simpl; [|done].
  apply elem_of_app. by left.
Qed.

Lemma replay_intervals_grow (fs : option Z) (logs : list MachineHistoryLog)
    (st : ReplayState) (i : Interval) :
  i ∈ intervals st -> i ∈ intervals (replay fs logs st).
Proof.
  revert st. unfold replay.
  induction logs as [|l logs IH]; intros st Hi; simpl; [done|].
  by apply IH, replayStep_intervals_grow.
Qed.

Lemma replay_other_machines (mid : Z) (fs : option Z)
    (logs : list MachineHistoryLog) (st : ReplayState) :
  Forall (fun l => log_machineId l <> mid) logs ->
  activeStops (replay fs logs st) !! mid = activeStops st !! mid.
Proof.
  intros Hlogs. revert st. unfold replay.
  induction Hlogs as [|l logs Hl _ IH]; intros st; simpl; [done|].
  rewrite IH. by apply replayStep_other_machine.
Qed.

Lemma replayStep_running (fs : option Z) (st : ReplayState)
    (l : MachineHistoryLog) (open : ActiveStop) :
  beforeFilter fs (log_timestamp l) = false ->
  log_newStatus l = RUNNING ->
  activeStops st !! log_machineId l = Some open ->
  replayStep fs st l
  = {| intervals :=
         intervals st ++
           [{| iv_machineId := log_machineId l;
               iv_reason := as_reason open;
               iv_start := as_start open;
               iv_end := log_timestamp l;
               iv_duration := log_timestamp l - as_start open |}];
       activeStops := delete (log_machineId l) (activeStops st) |}.
Proof.
  intros Hf Hs Hopen. unfold replayStep. by rewrite Hf, Hs, Hopen.
Qed.

Lemma replayStep_stopped (fs : option Z) (st : ReplayState)
    (l : MachineHistoryLog) :
  beforeFilter fs (log_timestamp l) = false ->
  log_newStatus l = STOPPED ->
  activeStops (replayStep fs st l) !! log_machineId l
  = Some {| as_start := log_timestamp l;
            as_reason := reasonOrDefault (log_reason l) |}.
Proof.
  intros Hf Hs. unfold replayStep. rewrite Hf, Hs. simpl.
  apply lookup_insert_eq.
Qed.

(** C5: every "running" event that finds a stoppage open for its machine
    closes it into an interval from the open instant to its own instant
    whose duration is the raw difference of the two instants, with no
    shift clipping; so a "stopped" event followed, with no event of that
    machine in between, by a "running" event of the machine gives such an
    interval in the output.  Every machine stopped in the snapshot whose
    last event in the log is a "stopped" event gets a synthesized interval
    from that event's instant to [now] whose duration is the shift-clipped
    [calculateActiveDowntime start workHours now].  The output holds
    nothing else: it is the closed intervals, all priced raw, followed by
    the synthesized ones, all priced by the shift clock. *)
Theorem closed_raw_live_clipped (history : list MachineHistoryLog)
    (machines : list Machine) (workHours : WorkHoursConfig)
    (filterStart : option Z) (now : Z) :
  let sorted := sortLogs history in
  let st := replay filterStart sorted initialState in
  let out := getDowntimeIntervals history machines workHours filterStart now in
  (forall st0 lrun open,
     beforeFilter filterStart (log_timestamp lrun) = false ->
     log_newStatus lrun = RUNNING ->
     activeStops st0 !! log_machineId lrun = Some open ->
     replayStep filterStart st0 lrun
     = {| intervals :=
            intervals st0 ++
              [{| iv_machineId := log_machineId lrun;
                  iv_reason := as_reason open;
                  iv_start := as_start open;
                  iv_end := log_timestamp lrun;
                  iv_duration := log_timestamp lrun - as_start open |}];
          activeStops := delete (log_machineId lrun) (activeStops st0) |})
  /\ (forall pre lstop between lrun post,
        sorted = pre ++ lstop :: between ++ lrun :: post ->
        beforeFilter filterStart (log_timestamp lstop) = false ->
        beforeFilter filterStart (log_timestamp lrun) = false ->
        log_newStatus lstop = STOPPED ->
        log_newStatus lrun = RUNNING ->
        log_machineId lrun = log_machineId lstop ->
        Forall (fun l => log_machineId l <> log_machineId lstop) between ->
        {| iv_machineId := log_machineId lstop;
           iv_reason := reasonOrDefault (log_reason lstop);
           iv_start := log_timestamp lstop;
           iv_end := log_timestamp lrun;
           iv_duration := log_timestamp lrun - log_timestamp lstop |} ∈ out)
  /\ (forall pre lstop post m,
        sorted = pre ++ lstop :: post ->
        beforeFilter filterStart (log_timestamp lstop) = false ->
        log_newStatus lstop = STOPPED ->
        Forall (fun l => log_machineId l <> log_machineId lstop) post ->
        m ∈ machines -> m_status m = STOPPED ->
        m_id m = log_machineId lstop ->
        {| iv_machineId := m_id m;
           iv_reason := reasonOrDefault (log_reason lstop);
           iv_start := log_timestamp lstop;
           iv_end := now;
           iv_duration :=
             calculateActiveDowntime (log_timestamp lstop) workHours now |}
        ∈ out)
  /\ exists closed live,
       out = closed ++ live
       /\ closed = intervals st
       /\ Forall (fun i => rawClosed history i
                           /\ iv_duration i = iv_end i - iv_start i) closed
       /\ live = liveIntervals workHours now (activeStops st) machines
       /\ Forall (fun i => exists m open,
                    m ∈ machines /\ m_status m = STOPPED
                    /\ activeStops st !! m_id m = Some open
                    /\ iv_machineId i = m_id m
                    /\ iv_reason i = as_reason open
                    /\ iv_start i = as_start open
                    /\ iv_end i = now
                    /\ iv_duration i
                       = calculateActiveDowntime (as_start open) workHours now)
                 live.
Proof.
  intros sorted st out.
  assert (Hout : out = intervals st
                       ++ liveIntervals workHours now (activeStops st) machines)
    by apply getDowntimeIntervals_split.
  split; [|split; [|split]].
  - intros st0 lrun open. apply replayStep_running.
  - intros pre lstop between lrun post Hsorted Hfs Hfr Hs Hr Hid Hbetween.
    rewrite Hout. apply elem_of_app. left.
    unfold st. rewrite Hsorted.
    rewrite replay_app. change (lstop :: between ++ lrun :: post)
      with ([lstop] ++ between ++ [lrun] ++ post).
    rewrite !replay_app.
    set (s1 := replay filterStart pre initialState).
    set (s2 := replay filterStart [lstop] s1).
    set (s3 := replay filterStart between s2).
    apply replay_intervals_grow.
    assert (Hopen : activeStops s3 !! log_machineId lrun
                    = Some {| as_start := log_timestamp lstop;
                              as_reason := reasonOrDefault (log_reason lstop) |}).
    { rewrite Hid. unfold s3. rewrite replay_other_machines by exact Hbetween.
      by apply replayStep_stopped. }
    change (replay filterStart [lrun] s3) with (replayStep filterStart s3 lrun).
    rewrite (replayStep_running _ _ _ _ Hfr Hr Hopen). simpl.
    rewrite Hid. apply elem_of_app. right. by left.
  - intros pre lstop post m Hsorted Hfs Hs Hpost Hm Hst Hid.
    rewrite Hout. apply elem_of_app. right.
    assert (Hopen : activeStops st !! m_id m
                    = Some {| as_start := log_timestamp lstop;
                              as_reason := reasonOrDefault (log_reason lstop) |}).
    { unfold st. rewrite Hsorted, replay_app.
      change (lstop :: post) with ([lstop] ++ post). rewrite replay_app.
      rewrite Hid, replay_other_machines by exact Hpost.
      by apply replayStep_stopped. }
    unfold liveIntervals. apply list_elem_of_In, in_flat_map.
    exists m. split; [by apply list_elem_of_In|].
    rewrite Hst, Hopen. by left.
  - exists (intervals st),
           (liveIntervals workHours now (activeStops st) machines).
    split; [exact Hout|]. split; [reflexivity|].
    split; [|split; [reflexivity|]].
    + destruct (replay_provenance history filterStart (sortLogs history)
                  initialState) as [Hc _].
      * intros l Hl. by rewrite <- (sortLogs_Permutation history).
      * constructor.
      * intros m open Hm. simpl in Hm. by rewrite lookup_empty in Hm.
      * eapply Forall_impl; [exact Hc|].
        intros i Hi. split; [exact Hi|].
        destruct Hi as (ls & lr & _ & _ & _ & _ & _ & _ & _ & Hs & He & Hd).
        lia.
    + generalize (activeStops st) as active. intros active.
      unfold liveIntervals. apply Forall_flat_map, Forall_forall.
      intros m Hm.
      destruct (m_status m) eqn:Hst; [constructor|].
      destruct (active !! m_id m) as [open|] eqn:Hlook; [|constructor].
      constructor; [|constructor].
      exists m, open. by repeat split.
Qed.

(** ** Independence of the storage order, machine by machine *)

Lemma filter_Permutation {A : Type} (P : A -> bool) (l l' : list A) :
  l ≡ₚ l' -> List.filter P l ≡ₚ List.filter P l'.
Proof.
  induction 1 as [|x l l' _ IH|x y l|l l' l'' _ IH1 _ IH2]; simpl.
  - done.
  - destruct (P x); by rewrite IH.
  - destruct (P x), (P y); try done. apply Permutation_swap.
  - by rewrite IH1.
Qed.

Lemma sortLogs_unique (history history' : list MachineHistoryLog) :
  (forall l1 l2, l1 ∈ history -> l2 ∈ history ->
                 log_timestamp l1 = log_timestamp l2 -> l1 = l2) ->
  history ≡ₚ history' ->
  sortLogs history' = sortLogs history.
Proof.
  intros Hties Hperm.
  apply (StronglySorted_unique_strong
           (fun a b => log_timestamp a <= log_timestamp b)).
  - intros x1 x2 H1 H2 H12 H21.
    rewrite (sortLogs_Permutation history'), <- Hperm in H1.
    rewrite (sortLogs_Permutation history) in H2.
    apply Hties; [done..|lia].
  - apply sortLogs_StronglySorted.
  - apply sortLogs_StronglySorted.
  - by rewrite !sortLogs_Permutation.
Qed.

Lemma getDowntimeIntervals_own (mid : Z) (history : list MachineHistoryLog)
    (machines : list Machine) (workHours : WorkHoursConfig)
    (filterStart : option Z) (now : Z) :
  let own := sortLogs (List.filter (fun l => log_machineId l =? mid) history) in
  List.filter (fun i => iv_machineId i =? mid)
    (getDowntimeIntervals history machines workHours filterStart now)
  = List.filter (fun i => iv_machineId i =? mid)
      (intervals (replay filterStart own initialState)
       ++ liveIntervals workHours now
            (activeStops (replay filterStart own initialState)) machines).
Proof.
  intros own. rewrite getDowntimeIntervals_split.
  unfold own. rewrite sortLogs_filter.
  destruct (replay_own_events mid filterStart (sortLogs history)
              initialState initialState eq_refl eq_refl) as [Hivs Hopen].
  rewrite !List.filter_app. f_equal; [exact Hivs|].
  by apply liveIntervals_own_stop.
Qed.

(** C4, amended: for an event log in which no two distinct events of the
    same machine share a timestamp, and for every permutation of it,
    reconstructing the intervals from the log and from the permuted log
    yields identical output sets; the intervals of each machine even come
    in the same order.  Events of different machines may share
    timestamps. *)
Theorem reconstruction_order_independent
    (history history' : list MachineHistoryLog) (machines : list Machine)
    (workHours : WorkHoursConfig) (filterStart : option Z) (now : Z) :
  (forall l1 l2, l1 ∈ history -> l2 ∈ history ->
                 log_machineId l1 = log_machineId l2 ->
                 log_timestamp l1 = log_timestamp l2 -> l1 = l2) ->
  history ≡ₚ history' ->
  (forall mid,
     List.filter (fun i => iv_machineId i =? mid)
       (getDowntimeIntervals history' machines workHours filterStart now)
     = List.filter (fun i => iv_machineId i =? mid)
         (getDowntimeIntervals history machines workHours filterStart now))
  /\ forall i,
       i ∈ getDowntimeIntervals history' machines workHours filterStart now
       <-> i ∈ getDowntimeIntervals history machines workHours filterStart now.
Proof.
  clear getElapsedShiftTimeTodayMs toFixed1 numberToString.
  intros Hties Hperm.
  assert (Hmid : forall mid,
    List.filter (fun i => iv_machineId i =? mid)
      (getDowntimeIntervals history' machines workHours filterStart now)
    = List.filter (fun i => iv_machineId i =? mid)
        (getDowntimeIntervals history machines workHours filterStart now)).
  { intros mid. rewrite !getDowntimeIntervals_own.
    rewrite (sortLogs_unique
               (List.filter (fun l => log_machineId l =? mid) history)
               (List.filter (fun l => log_machineId l =? mid) history'));
      [done| |by apply filter_Permutation].
    intros l1 l2 H1 H2 Ht.
    apply list_elem_of_In, filter_In in H1 as [H1 Hm1].
    apply list_elem_of_In, filter_In in H2 as [H2 Hm2].
    apply Z.eqb_eq in Hm1, Hm2.
    apply Hties; [by apply list_elem_of_In..|congruence|done]. }
  split; [exact Hmid|].
  intros i.
  assert (Hown : forall l, i ∈ l <->
            i ∈ List.filter (fun j => iv_machineId j =? iv_machineId i) l).
  { intros l. rewrite !list_elem_of_In, filter_In, Z.eqb_refl. tauto. }
  rewrite (Hown (getDowntimeIntervals history' _ _ _ _)).
  rewrite (Hown (getDowntimeIntervals history _ _ _ _)).
  by rewrite Hmid.
Qed.

(** ** Counting and ordering the closed intervals *)

Lemma replay_counts (fs : option Z) (logs : list MachineHistoryLog)
    (st : ReplayState) :
  let stops :=
    length (List.filter (fun l => match log_newStatus l with
                                  | STOPPED => true | RUNNING => false end)
                        logs) in
  let restarts :=
    length (List.filter (fun l => match log_newStatus l with
                                  | RUNNING => true | STOPPED => false end)
                        logs) in
  (length (intervals (replay fs logs st))
   + size (activeStops (replay fs logs st))
   <= length (intervals st) + size (activeStops st) + stops)%nat
  /\ (length (intervals (replay fs logs st))
      <= length (intervals st) + restarts)%nat.
Proof.
  revert st. unfold replay.
  induction logs as [|l logs IH]; intros st; simpl; [lia|].
  destruct (IH (replayStep fs st l)) as [IH1 IH2].
  assert (Hstep :
    (length (intervals (replayStep fs st l))
     + size (activeStops (replayStep fs st l))
     <= length (intervals st) + size (activeStops st)
        + match log_newStatus l with STOPPED => 1 | RUNNING => 0 end)%nat
    /\ (length (intervals (replayStep fs st l))
        <= length (intervals st)
           + match log_newStatus l with RUNNING => 1 | STOPPED => 0 end)%nat).
  { unfold replayStep.
    destruct (beforeFilter fs (log_timestamp l)); [lia|].
    destruct (log_newStatus l); simpl.
    - destruct (activeStops st !! log_machineId l) as [open|] eqn:Hlook;
        [|lia].
      simpl. rewrite length_app, map_size_delete, Hlook. simpl.
      assert (size (activeStops st) <> 0%nat); [|lia].
      intros Hz. apply map_size_empty_inv in Hz. rewrite Hz in Hlook.
      by rewrite lookup_empty in Hlook.
    - rewrite map_size_insert.
      destruct (activeStops st !! log_machineId l); simpl; lia. }
  destruct (log_newStatus l); simpl in *; lia.
Qed.

(** X4: there are never more closed intervals than "stopped" events in the log,
    nor more than "running" events. *)
Theorem closed_intervals_bounded_by_events
    (history : list MachineHistoryLog) (filterStart : option Z) :
  let closed := intervals (replay filterStart (sortLogs history) initialState) in
  (length closed
   <= length (List.filter (fun l => match log_newStatus l with
                                    | STOPPED => true | RUNNING => false end)
                          history))%nat
  /\ (length closed
      <= length (List.filter (fun l => match log_newStatus l with
                                       | RUNNING => true | STOPPED => false end)
                             history))%nat.
Proof.
  intros closed.
  destruct (replay_counts filterStart (sortLogs history) initialState)
    as [H1 H2].
  rewrite <- !sortLogs_filter in H1, H2. unfold sortLogs in H1, H2.
  rewrite !arraySort_length in H1, H2. simpl in H1, H2.
  rewrite map_size_empty in H1. unfold closed, sortLogs. split; lia.
Qed.

(** X3: whatever the storage order of the log, a closed interval never runs
    backwards: its start is not after its end and its duration is not
    negative. *)
Theorem closed_intervals_run_forward (history : list MachineHistoryLog)
    (filterStart : option Z) :
  Forall (fun i => iv_start i <= iv_end i /\ 0 <= iv_duration i)
         (intervals (replay filterStart (sortLogs history) initialState)).
Proof.
  destruct (replay_provenance history filterStart (sortLogs history)
              initialState) as [Hraw _].
  { intros l Hl. by rewrite <- (sortLogs_Permutation history). }
  { constructor. }
  { intros m open Hm. simpl in Hm. by rewrite lookup_empty in Hm. }
  assert (Hpos : Forall (fun i => 0 <= iv_duration i)
                   (intervals (replay filterStart (sortLogs history)
                                      initialState))).
  { apply replay_durations_nonneg.
    - apply sortLogs_StronglySorted.
    - constructor.
    - intros m open l Hm. simpl in Hm. by rewrite lookup_empty in Hm. }
  rewrite Forall_forall in Hraw, Hpos. apply Forall_forall. intros i Hi.
  destruct (Hraw i Hi) as (ls & lr & _ & _ & _ & _ & _ & _ & _ & Hs & He & Hd).
  specialize (Hpos i Hi). lia.
Qed.

(** ** More on the metrics *)

(** X7: the cycle time in seconds is always strictly positive (a non-positive
    configured value falls back to 30), so the theoretical maximum is
    always the run time in seconds divided by it. *)
Theorem cycle_time_always_positive (val : Q) (unit : CycleUnit)
    (workHours : WorkHoursConfig) (now : Z) (machine : Machine) :
  (0 < getCycleTimeInSeconds val unit)%Q
  /\ theoreticalMaxProduction workHours now machine
     = (inject_Z (runTimeMs workHours now machine) / 1000
        / getCycleTimeInSeconds (m_cycleTimeValue machine)
                                (m_cycleTimeUnit machine))%Q.
Proof.
  assert (Hpos : forall v u, (0 < getCycleTimeInSeconds v u)%Q).
  { intros v u. unfold getCycleTimeInSeconds.
    destruct (Qle_bool v 0) eqn:Hle; [reflexivity|].
    assert (Hval : (0 < v)%Q).
    { apply Qnot_le_lt. intros H. apply Qle_bool_iff in H. congruence. }
    destruct u; [exact Hval| |];
      apply Qmult_lt_0_compat; try exact Hval; reflexivity. }
  split; [apply Hpos|].
  unfold theoreticalMaxProduction.
  by rewrite (proj2 (Qltb_lt _ _) (Hpos _ _)).
Qed.

(** X8: before the shift has started (no planned production time yet) the
    reported Availability and the reported OEE of every machine are 0,
    whatever was produced. *)
Theorem no_planned_time_gives_zero_oee (ivs : list Interval)
    (workHours : WorkHoursConfig) (now : Z) (machine : Machine) :
  getElapsedShiftTimeTodayMs workHours now <= 0 ->
  let mt := machineMetrics ivs workHours now machine in
  (mm_availability mt == 0)%Q /\ (mm_oee mt == 0)%Q.
Proof.
  intros Hplanned mt.
  assert (Hav : availability workHours now machine = 0%Q).
  { unfold availability. by rewrite (proj2 (Z.ltb_ge _ _) Hplanned). }
  assert (Hoee : (oee workHours now machine == 0)%Q).
  { unfold oee. rewrite Hav. unfold Qdiv. by rewrite !Qmult_0_l. }
  assert (Hzero : forall x : Q, (x == 0)%Q -> (clampPercent (round1 x) == 0)%Q).
  { intros x Hx. rewrite clampPercent_id.
    - rewrite Hx. reflexivity.
    - apply round1_range. rewrite Hx. split; discriminate. }
  unfold mt, machineMetrics. simpl. split.
  - apply Hzero. by rewrite Hav.
  - by apply Hzero.
Qed.

(** X9: every percentage of every metrics entry lies between 0 and 100. *)
Theorem reported_percentages_within_bounds (machines : list Machine)
    (history : list MachineHistoryLog) (workHours : WorkHoursConfig)
    (now : Z) (mt : MachineMetrics) :
  mt ∈ calculateFleetMetrics machines history workHours now ->
  (0 <= mm_availability mt <= 100)%Q
  /\ (0 <= mm_performance mt <= 100)%Q
  /\ (0 <= mm_quality mt <= 100)%Q
  /\ (0 <= mm_oee mt <= 100)%Q.
Proof.
  unfold calculateFleetMetrics. change (map ?f ?l) with (f <$> l).
  intros Hin. apply list_elem_of_fmap in Hin as (machine & -> & _).
  repeat split; apply clampPercent_range.
Qed.

(** ** More on the Pareto ranking *)

Lemma accumulate_fields (total : Z) (acc : Q) (sorted : list ParetoEntry) :
  map pi_reason (accumulate total acc sorted) = map pe_reason sorted
  /\ map pi_count (accumulate total acc sorted) = map pe_count sorted
  /\ map pi_durationMs (accumulate total acc sorted) = map pe_durationMs sorted.
Proof.
  revert acc. induction sorted as [|e rest IH]; intros acc; simpl; [done|].
  destruct (IH (acc + (if 0 <? total
                       then inject_Z (pe_durationMs e) / inject_Z total * 100
                       else 0))%Q) as (H1 & H2 & H3).
  by rewrite H1, H2, H3.
Qed.

Lemma accumulate_item (total : Z) (acc : Q) (sorted : list ParetoEntry)
    (it : ParetoItem) :
  it ∈ accumulate total acc sorted ->
  exists e, e ∈ sorted /\ pi_reason it = pe_reason e
            /\ pi_count it = pe_count e /\ pi_durationMs it = pe_durationMs e.
Proof.
  revert acc. induction sorted as [|e rest IH]; intros acc; simpl.
  - intros H. by apply elem_of_nil in H.
  - intros H. apply elem_of_cons in H as [->|H].
    + exists e. split; [by left | done].
    + destruct (IH _ H) as (e' & He' & Hf). exists e'. split; [by right|done].
Qed.

(** X10: the Pareto list is ranked: durations never increase along it. *)
Theorem pareto_ranked_by_duration (machines : list Machine)
    (history : list MachineHistoryLog) (workHours : WorkHoursConfig)
    (now : Z) :
  StronglySorted (fun a b => pi_durationMs b <= pi_durationMs a)
                 (calculatePareto machines history workHours now).
Proof.
  unfold calculatePareto.
  set (grouped := paretoGrouped _). set (total := paretoTotalDuration _).
  assert (Hsorted : StronglySorted (fun a b => pe_durationMs b <= pe_durationMs a)
                                   (paretoSorted grouped)).
  { eapply StronglySorted_weaken;
      [|apply (arraySort_StronglySorted paretoLe)].
    - intros a b H. unfold paretoLe in H. apply Z.leb_le in H. lia.
    - intros a b H. unfold paretoLe in *. apply Z.leb_gt in H.
      apply Z.leb_le. lia.
    - intros a b c. unfold paretoLe. rewrite !Z.leb_le. lia. }
  revert Hsorted. generalize (paretoSorted grouped) as sorted.
  generalize 0%Q as acc. intros acc sorted. revert acc.
  induction sorted as [|e rest IH]; intros acc Hs; simpl; [constructor|].
  apply StronglySorted_inv in Hs as [Hrest He].
  constructor; [by apply IH|].
  apply Forall_forall. intros it Hit.
  destruct (accumulate_item _ _ _ _ Hit) as (e' & He' & _ & _ & Hd).
  rewrite Forall_forall in He. simpl. rewrite Hd. by apply He.
Qed.

Lemma groupOf_addToGroup (k reason : string) (duration : Z)
    (grouped : list (string * Group)) :
  groupOf k (addToGroup reason duration grouped)
  = if String.eqb reason k
    then Some match groupOf reason grouped with
              | Some g => {| g_count := g_count g + 1;
                             g_duration := g_duration g + duration |}
              | None => {| g_count := 0 + 1; g_duration := 0 + duration |}
              end
    else groupOf k grouped.
Proof.
  unfold groupOf.
  induction grouped as [|[k0 g0] rest IH]; simpl.
  - destruct (String.eqb reason k); reflexivity.
  - destruct (String.eqb k0 reason) eqn:H0; simpl.
    + apply String.eqb_eq in H0 as ->.
      destruct (String.eqb reason k); reflexivity.
    + destruct (String.eqb k0 k) eqn:Hk; simpl.
      * apply String.eqb_eq in Hk as ->.
        rewrite String.eqb_sym, H0. reflexivity.
      * exact IH.
Qed.

Lemma addToGroup_keys (reason : string) (duration : Z)
    (grouped : list (string * Group)) :
  (NoDup (map fst grouped) ->
   NoDup (map fst (addToGroup reason duration grouped)))
  /\ forall k, k ∈ map fst (addToGroup reason duration grouped)
               <-> k = reason \/ k ∈ map fst grouped.
Proof.
  induction grouped as [|[k0 g0] rest [IHnd IHin]]; simpl.
  - split; [intros _; repeat constructor; by intros H%elem_of_nil|].
    intros k. rewrite list_elem_of_singleton, elem_of_nil. tauto.
  - destruct (String.eqb k0 reason) eqn:H0; simpl.
    + apply String.eqb_eq in H0 as ->. split; [done|].
      intros k. rewrite elem_of_cons. tauto.
    + split.
      * intros Hnd. apply NoDup_cons in Hnd as [Hk0 Hnd].
        apply NoDup_cons. split; [|by apply IHnd].
        rewrite IHin. intros [->|Hin]; [|done].
        by rewrite String.eqb_refl in H0.
      * intros k. rewrite !elem_of_cons, IHin. tauto.
Qed.

Lemma paretoGrouped_snoc (ivs : list Interval) (i : Interval) :
  paretoGrouped (ivs ++ [i])
  = addToGroup (iv_reason i) (iv_duration i) (paretoGrouped ivs).
Proof. unfold paretoGrouped. by rewrite fold_left_app. Qed.

Lemma paretoGrouped_keys (ivs : list Interval) :
  NoDup (map fst (paretoGrouped ivs))
  /\ forall k, k ∈ map fst (paretoGrouped ivs)
               <-> exists i, i ∈ ivs /\ iv_reason i = k.
Proof.
  induction ivs as [|i ivs [IHnd IHin]] using rev_ind.
  - split; [constructor|]. intros k. simpl. split.
    + by intros H%elem_of_nil.
    + intros (i & H%elem_of_nil & _). done.
  - rewrite paretoGrouped_snoc.
    destruct (addToGroup_keys (iv_reason i) (iv_duration i)
                (paretoGrouped ivs)) as [Hnd Hin].
    split; [by apply Hnd|].
    intros k. rewrite Hin, IHin. split.
    + intros [->|(j & Hj & Hr)].
      * exists i. split; [|done]. apply elem_of_app. right. by left.
      * exists j. split; [|done]. apply elem_of_app. by left.
    + intros (j & Hj & Hr). apply elem_of_app in Hj as [Hj|Hj].
      * right. by exists j.
      * apply list_elem_of_singleton in Hj as ->. by left.
Qed.

Lemma paretoGrouped_groupOf (ivs : list Interval) (k : string) :
  groupOf k (paretoGrouped ivs)
  = match withReason k ivs with
    | [] => None
    | _ :: _ =>
        Some {| g_count := Z.of_nat (length (withReason k ivs));
                g_duration := durationSum (withReason k ivs) |}
    end.
Proof.
  induction ivs as [|i ivs IH] using rev_ind; [done|].
  rewrite paretoGrouped_snoc, groupOf_addToGroup.
  unfold withReason in *. rewrite List.filter_app. simpl.
  destruct (String.eqb (iv_reason i) k) eqn:Hr.
  - apply String.eqb_eq in Hr as <-. rewrite IH.
    destruct (List.filter _ ivs) as [|j mine] eqn:Hmine; simpl; [done|].
    destruct (mine ++ [i]) eqn:Happ; [by destruct mine|]. rewrite <- Happ.
    f_equal. f_equal.
    + rewrite length_app. simpl. lia.
    + unfold durationSum. simpl. by rewrite fold_left_app.
  - by rewrite app_nil_r.
Qed.

Lemma groupOf_elem (k : string) (g : Group)
    (grouped : list (string * Group)) :
  NoDup (map fst grouped) -> (k, g) ∈ grouped -> groupOf k grouped = Some g.
Proof.
  unfold groupOf.
  induction grouped as [|[k0 g0] rest IH]; simpl; intros Hnd Hin.
  - by apply elem_of_nil in Hin.
  - apply NoDup_cons in Hnd as [Hk0 Hnd].
    apply elem_of_cons in Hin as [[= <- <-]|Hin].
    + by rewrite String.eqb_refl.
    + destruct (String.eqb k0 k) eqn:Hk; [|by apply IH].
      apply String.eqb_eq in Hk as ->. exfalso. apply Hk0.
      by apply (list_elem_of_fmap_2 fst _ (k, g)).
Qed.

Lemma calculatePareto_item (machines : list Machine)
    (history : list MachineHistoryLog) (workHours : WorkHoursConfig)
    (now : Z) (it : ParetoItem) :
  it ∈ calculatePareto machines history workHours now ->
  (pi_reason it,
   {| g_count := pi_count it; g_duration := pi_durationMs it |})
  ∈ paretoGrouped (getDowntimeIntervals history machines workHours None now).
Proof.
  unfold calculatePareto. set (grouped := paretoGrouped _). intros Hit.
  destruct (accumulate_item _ _ _ _ Hit) as (e & He & -> & -> & ->).
  unfold paretoSorted in He. rewrite arraySort_Permutation in He.
  change (map ?f ?l) with (f <$> l) in He.
  apply list_elem_of_fmap in He as ([k g] & -> & He). simpl.
  rewrite objectEntries_Permutation in He. by destruct g.
Qed.

(** X11: when no event of the log carries a reason that names an inherited
    member of objects, the Pareto list has exactly one item per distinct
    reason found among the intervals: its reasons are pairwise different,
    and a label is the reason of an item exactly when some interval carries
    it. *)
Theorem pareto_one_item_per_reason (machines : list Machine)
    (history : list MachineHistoryLog) (workHours : WorkHoursConfig)
    (now : Z) :
  (forall l, l ∈ history ->
             isInheritedMember (reasonOrDefault (log_reason l)) = false) ->
  let ivs := getDowntimeIntervals history machines workHours None now in
  let out := calculatePareto machines history workHours now in
  NoDup (map pi_reason out)
  /\ forall reason, reason ∈ map pi_reason out
                    <-> exists i, i ∈ ivs /\ iv_reason i = reason.
Proof.
  intros _ ivs out.
  destruct (paretoGrouped_keys ivs) as [Hnd Hin].
  assert (Hperm : map pi_reason out ≡ₚ map fst (paretoGrouped ivs)).
  { unfold out, calculatePareto. fold ivs.
    destruct (accumulate_fields (paretoTotalDuration (paretoGrouped ivs)) 0
                (paretoSorted (paretoGrouped ivs))) as (-> & _).
    unfold paretoSorted. rewrite arraySort_Permutation, map_map. simpl.
    by rewrite objectEntries_Permutation. }
  split.
  - by rewrite Hperm.
  - intros reason. by rewrite Hperm.
Qed.

(** X12: each Pareto item counts the intervals that carry its reason and sums
    their durations. *)
Theorem pareto_counts_and_durations (machines : list Machine)
    (history : list MachineHistoryLog) (workHours : WorkHoursConfig)
    (now : Z) (it : ParetoItem) :
  let ivs := getDowntimeIntervals history machines workHours None now in
  it ∈ calculatePareto machines history workHours now ->
  pi_count it = Z.of_nat (length (withReason (pi_reason it) ivs))
  /\ pi_durationMs it = durationSum (withReason (pi_reason it) ivs)
  /\ 1 <= pi_count it.
Proof.
  intros ivs Hit. apply calculatePareto_item in Hit. fold ivs in Hit.
  destruct (paretoGrouped_keys ivs) as [Hnd _].
  apply (groupOf_elem _ _ _ Hnd) in Hit.
  rewrite paretoGrouped_groupOf in Hit.
  destruct (withReason (pi_reason it) ivs) as [|j mine] eqn:Hmine; [done|].
  injection Hit as Hc Hd. rewrite <- Hc, <- Hd. simpl length.
  repeat split; lia.
Qed.

Lemma single_stoppage_interval (m : Z) (reason : string) (t1 t2 : Z)
    (machines : list Machine) (workHours : WorkHoursConfig) (now : Z) :
  t1 <= t2 ->
  getDowntimeIntervals [stopEvent m reason t1; runEvent m t2]
                       machines workHours None now
  = [{| iv_machineId := m;
        iv_reason := reasonOrDefault (Some reason);
        iv_start := t1;
        iv_end := t2;
        iv_duration := t2 - t1 |}].
Proof.
  intros H12. rewrite getDowntimeIntervals_split.
  unfold sortLogs. rewrite (arraySort_sorted_id logLe).
  2:{ repeat constructor; apply logLe_spec; simpl; lia. }
  unfold replay, replayStep. simpl.
  rewrite lookup_insert_eq. simpl.
  rewrite delete_insert_eq, delete_empty.
  rewrite liveIntervals_closed_machine; [done|].
  intros; apply lookup_empty.
Qed.

(** X14: a log made of one stop and the later restart of the same machine,
    with a reason that does not name an inherited member of objects, yields
    a Pareto list with a single item: the reason of the stop, one
    occurrence, the time between the two events, and 100 percent. *)
Theorem single_stoppage_pareto (m : Z) (reason : string) (t1 t2 : Z)
    (machines : list Machine) (workHours : WorkHoursConfig) (now : Z) :
  isInheritedMember (reasonOrDefault (Some reason)) = false ->
  t1 < t2 ->
  calculatePareto machines [stopEvent m reason t1; runEvent m t2]
                  workHours now
  = [{| pi_reason := reasonOrDefault (Some reason);
        pi_count := 1;
        pi_durationMs := t2 - t1;
        pi_accumulatedPercent := 100 |}].
Proof.
  intros _ H12. unfold calculatePareto.
  rewrite single_stoppage_interval by lia.
  generalize (reasonOrDefault (Some reason)) as r. intros r.
  unfold paretoGrouped, paretoTotalDuration, paretoSorted, objectEntries.
  simpl.
  assert (Hround : mathRound (0 + inject_Z (t2 - t1) / inject_Z (t2 - t1) * 100)
                   = 100).
  { transitivity (mathRound (inject_Z 100)); [|apply mathRound_inject_Z].
    apply mathRound_proper.
    assert (Hnz : ~ (inject_Z (t2 - t1) == 0)%Q).
    { change 0%Q with (inject_Z 0). rewrite inject_Z_injective. lia. }
    change (inject_Z 100) with 100%Q.
    revert Hnz. generalize (inject_Z (t2 - t1)) as d. intros d Hnz.
    by field. }
  assert (Hpos : (0 <? t2 - t1) = true) by (apply Z.ltb_lt; lia).
  destruct (isArrayIndex r); simpl;
    rewrite !Z.add_0_l, Hpos, Hround; reflexivity.
Qed.

Lemma accumulate_zero_total (total : Z) (sorted : list ParetoEntry) (acc : Q) :
  total <= 0 ->
  Forall (fun it => pi_accumulatedPercent it = mathRound acc)
         (accumulate total acc sorted).
Proof.
  intros Ht. apply Z.ltb_ge in Ht.
  revert acc. induction sorted as [|e rest IH]; intros acc; simpl;
    [constructor|].
  rewrite Ht.
  assert (Hacc : mathRound (acc + 0) = mathRound acc).
  { apply mathRound_proper. apply Qplus_0_r. }
  constructor; [exact Hacc|].
  eapply Forall_impl; [apply IH|]. simpl. intros it ->. exact Hacc.
Qed.

Lemma fold_left_sum_nonneg {A : Type} (f : A -> Z) (l : list A) :
  Forall (fun x => 0 <= f x) l ->
  0 <= fold_left (fun acc x => acc + f x) l 0.
Proof.
  induction 1 as [|x l Hx _ IH]; simpl; [lia|].
  rewrite fold_left_sum_shift. lia.
Qed.

Lemma accumulate_bounded (total : Z) (sorted : list ParetoEntry) (acc : Q) :
  0 < total ->
  Forall (fun e => 0 <= pe_durationMs e) sorted ->
  Forall (fun it =>
            pi_accumulatedPercent it
            <= mathRound
                 (acc + inject_Z (fold_left (fun a e => a + pe_durationMs e)
                                            sorted 0)
                        / inject_Z total * 100))
         (accumulate total acc sorted).
Proof.
  intros Ht Hs. apply Z.ltb_lt in Ht as Hb.
  assert (Hpos : (0 < inject_Z total)%Q).
  { change 0%Q with (inject_Z 0). by rewrite <- Zlt_Qlt. }
  assert (Hnz : ~ (inject_Z total == 0)%Q).
  { intros H. rewrite H in Hpos. by apply Qlt_irrefl in Hpos. }
  revert acc. induction Hs as [|e rest He Hrest IH]; intros acc; simpl;
    [constructor|].
  rewrite Hb.
  rewrite (fold_left_sum_shift pe_durationMs rest (0 + pe_durationMs e)).
  rewrite Z.add_0_l, inject_Z_plus.
  pose proof (fold_left_sum_nonneg pe_durationMs rest Hrest) as Hsum.
  rewrite Zle_Qle in Hsum.
  revert Hsum IH.
  generalize (fold_left (fun a x => a + pe_durationMs x) rest 0) as s.
  intros s Hsum IH. change (inject_Z 0) with 0%Q in Hsum.
  constructor.
  - simpl. apply mathRound_mono.
    apply Qplus_le_r. apply Qmult_le_compat_r; [|discriminate].
    apply Qmult_le_compat_r; [|apply Qlt_le_weak, Qinv_lt_0_compat, Hpos].
    rewrite <- (Qplus_0_r (inject_Z (pe_durationMs e))) at 1.
    by apply Qplus_le_r.
  - eapply Forall_impl; [apply IH|]. simpl. intros it Hit.
    etransitivity; [exact Hit|]. apply Z.eq_le_incl, mathRound_proper.
    revert Hnz. generalize (inject_Z total) as t.
    generalize (inject_Z (pe_durationMs e)) as d.
    generalize (inject_Z s) as q. intros q d t Hnz. by field.
Qed.

(** X13: provided the shift clock never returns a negative duration, every
    accumulatedPercent of the Pareto list lies between 0 and 100. *)
Theorem pareto_percent_within_bounds (machines : list Machine)
    (history : list MachineHistoryLog) (workHours : WorkHoursConfig)
    (now : Z) (it : ParetoItem) :
  (forall start config n, 0 <= calculateActiveDowntime start config n) ->
  it ∈ calculatePareto machines history workHours now ->
  0 <= pi_accumulatedPercent it <= 100.
Proof.
  intros Hclock Hit. unfold calculatePareto in Hit.
  set (grouped := paretoGrouped _) in *.
  assert (Hnonneg : Forall (fun e => 0 <= pe_durationMs e)
                           (paretoSorted grouped)).
  { apply paretoSorted_nonneg, fold_groupStep_nonneg; [constructor|].
    by apply getDowntimeIntervals_nonneg. }
  assert (H0 : mathRound 0 = 0) by apply (mathRound_inject_Z 0).
  split.
  - destruct (accumulate_monotone (paretoTotalDuration grouped)
                (paretoSorted grouped) 0 Hnonneg) as [Hge _].
    rewrite Forall_forall in Hge. specialize (Hge it Hit). lia.
  - destruct (Z.lt_ge_cases 0 (paretoTotalDuration grouped)) as [Hpos|Hzero].
    + pose proof (accumulate_bounded _ _ 0 Hpos Hnonneg) as Hle.
      rewrite Forall_forall in Hle. specialize (Hle it Hit).
      etransitivity; [exact Hle|].
      rewrite paretoSorted_total.
      apply Z.eq_le_incl.
      transitivity (mathRound (inject_Z 100)); [|apply mathRound_inject_Z].
      apply mathRound_proper.
      assert (Hnz : ~ (inject_Z (paretoTotalDuration grouped) == 0)%Q).
      { change 0%Q with (inject_Z 0). rewrite inject_Z_injective. lia. }
      change (inject_Z 100) with 100%Q.
      revert Hnz. generalize (inject_Z (paretoTotalDuration grouped)) as t.
      intros t Hnz. by field.
    + pose proof (accumulate_zero_total _ (paretoSorted grouped) 0 Hzero)
        as Heq.
      rewrite Forall_forall in Heq. rewrite (Heq it Hit), H0. lia.
Qed.

(** ** More on the insights *)

Lemma sum_oee_lower_bound (c : Q) (metrics : list MachineMetrics) (a : Q) :
  (forall m, m ∈ metrics -> (c <= mm_oee m)%Q) ->
  (a + c * inject_Z (Z.of_nat (length metrics))
   <= fold_left (fun acc m => acc + mm_oee m) metrics a)%Q.
Proof.
  revert a. induction metrics as [|m ms IH]; intros a Hall.
  - simpl. rewrite Qmult_0_r, Qplus_0_r. apply Qle_refl.
  - cbn [fold_left length]. rewrite Nat2Z.inj_succ.
    unfold Z.succ. rewrite inject_Z_plus.
    eapply Qle_trans; [|apply IH; intros m' Hm'; apply Hall; by right].
    assert (Hm : (c <= mm_oee m)%Q) by (apply Hall; by left).
    revert Hm. generalize (inject_Z (Z.of_nat (length ms))) as n.
    generalize (mm_oee m) as o. intros o n Hm.
    change (inject_Z 1) with 1%Q. lra.
Qed.

Lemma avgOEE_lower_bound (c : Q) (metrics : list MachineMetrics) :
  metrics <> [] ->
  (forall m, m ∈ metrics -> (c <= mm_oee m)%Q) ->
  (c <= avgOEE metrics)%Q.
Proof.
  intros Hne Hall. unfold avgOEE.
  assert (Hn : 0 < Z.of_nat (length metrics)).
  { destruct metrics; [done|]. simpl length. lia. }
  assert (Hb : (Z.of_nat (length metrics) =? 0) = false)
    by (apply Z.eqb_neq; lia).
  rewrite Hb.
  apply Qle_shift_div_l.
  - change 0%Q with (inject_Z 0). by rewrite <- Zlt_Qlt.
  - pose proof (sum_oee_lower_bound c metrics 0 Hall) as H.
    by rewrite Qplus_0_l in H.
Qed.

Lemma worstMachine_nonempty (metrics : list MachineMetrics) :
  metrics <> [] -> exists worst, worstMachine metrics = Some worst.
Proof.
  intros Hne. unfold worstMachine.
  pose proof (arraySort_length oeeLe metrics) as Hlen.
  destruct (arraySort oeeLe metrics) as [|w rest]; [|by exists w].
  destruct metrics; [done|]. discriminate.
Qed.

(** X15: for a fleet that is not empty, the fleet-average message never comes
    alone: an average OEE below 60 forces the worst machine below 60, so
    the worst-machine message follows it. *)
Theorem critical_average_implies_bottleneck (metrics : list MachineMetrics)
    (pareto : list ParetoItem) :
  metrics <> [] ->
  (avgOEE metrics < 60)%Q ->
  exists worst,
    worstMachine metrics = Some worst
    /\ (mm_oee worst < 60)%Q
    /\ generateAIInsights metrics pareto
       = criticalMessage (avgOEE metrics)
         :: bottleneckMessage worst
         :: match pareto with
            | topReason :: _ => [topCauseMessage topReason]
            | [] => []
            end.
Proof.
  intros Hne Havg.
  destruct (worstMachine_nonempty metrics Hne) as [worst Hworst].
  destruct (worstMachine_minimal metrics worst Hworst) as [_ Hmin].
  pose proof (avgOEE_lower_bound (mm_oee worst) metrics Hne Hmin) as Hle.
  assert (Hlow : (mm_oee worst < 60)%Q) by lra.
  exists worst. split; [exact Hworst|]. split; [exact Hlow|].
  unfold generateAIInsights. rewrite Hworst.
  rewrite (proj2 (Qltb_lt _ _) Havg).
  assert (H70 : (mm_oee worst < 70)%Q) by lra.
  rewrite (proj2 (Qltb_lt _ _) H70). by destruct pareto.
Qed.

(** X16: when every machine of a non-empty fleet has an OEE of at least 70,
    neither the fleet-average nor the worst-machine message is emitted:
    the list holds the top-cause message alone, or nothing. *)
Theorem healthy_fleet_only_top_cause (metrics : list MachineMetrics)
    (pareto : list ParetoItem) :
  metrics <> [] ->
  (forall m, m ∈ metrics -> (70 <= mm_oee m)%Q) ->
  generateAIInsights metrics pareto
  = match pareto with
    | topReason :: _ => [topCauseMessage topReason]
    | [] => []
    end.
Proof.
  intros Hne Hall.
  destruct (worstMachine_nonempty metrics Hne) as [worst Hworst].
  destruct (worstMachine_minimal metrics worst Hworst) as [Hin _].
  pose proof (avgOEE_lower_bound 70 metrics Hne Hall) as Havg.
  pose proof (Hall worst Hin) as Hw.
  unfold generateAIInsights. rewrite Hworst.
  assert (H1 : Qltb (avgOEE metrics) 60 = false).
  { apply not_true_iff_false. rewrite Qltb_lt. lra. }
  assert (H2 : Qltb (mm_oee worst) 70 = false).
  { apply not_true_iff_false. rewrite Qltb_lt. lra. }
  rewrite H1, H2. by destruct pareto.
Qed.

(** ** Time totals *)

Lemma sumDuration_antitone (ivs : list Interval) (f1 f2 : Z) :
  Forall (fun i => 0 <= iv_duration i) ivs ->
  f1 <= f2 ->
  0 <= sumDuration ivs f2 <= sumDuration ivs f1.
Proof.
  intros Hivs Hf. unfold sumDuration.
  induction Hivs as [|i ivs Hi _ IH]; simpl; [lia|].
  destruct (iv_end i >=? f2) eqn:H2.
  - assert (H1 : (iv_end i >=? f1) = true).
    { rewrite Z.geb_leb in *. apply Z.leb_le in H2. apply Z.leb_le. lia. }
    rewrite H1. simpl.
    rewrite (fold_left_sum_shift iv_duration _ (0 + _)).
    rewrite (fold_left_sum_shift iv_duration (List.filter _ ivs) (0 + _)).
    lia.
  - destruct (iv_end i >=? f1); simpl; [|lia].
    rewrite (fold_left_sum_shift iv_duration _ (0 + _)). lia.
Qed.

(** X17: provided the shift clock never returns a negative duration, and the
    week and the month begin no later than the day, the daily total is not
    negative and exceeds neither the weekly nor the monthly total. *)
Theorem time_totals_nested (machines : list Machine)
    (history : list MachineHistoryLog) (workHours : WorkHoursConfig)
    (now startOfDay startOfWeek startOfMonth : Z) :
  (forall start config n, 0 <= calculateActiveDowntime start config n) ->
  startOfWeek <= startOfDay ->
  startOfMonth <= startOfDay ->
  let totals := calculateTimeTotals machines history workHours now
                  startOfDay startOfWeek startOfMonth in
  0 <= dailyMs totals
  /\ dailyMs totals <= weeklyMs totals
  /\ dailyMs totals <= monthlyMs totals.
Proof.
  intros Hclock Hw Hm totals. unfold totals, calculateTimeTotals. simpl.
  pose proof (getDowntimeIntervals_nonneg history machines workHours None now
                Hclock) as Hivs.
  pose proof (sumDuration_antitone _ _ _ Hivs Hw).
  pose proof (sumDuration_antitone _ _ _ Hivs Hm). lia.
Qed.

(** ** The dashboard ranking *)

(** X18: the ranking shown on the dashboard holds the eight machines of
    greatest downtime today (all of them when there are fewer), in
    descending order; no machine left out has more downtime than a machine
    shown. *)
Theorem top_downtime_machines_ranked (fleetMetrics : list MachineMetrics) :
  let top := topDowntimeMachines fleetMetrics in
  length top = Nat.min 8 (length fleetMetrics)
  /\ StronglySorted
       (fun a b => mm_totalDowntimeMs b <= mm_totalDowntimeMs a) top
  /\ exists rest,
       top ++ rest ≡ₚ fleetMetrics
       /\ forall a b, a ∈ top -> b ∈ rest ->
                      mm_totalDowntimeMs b <= mm_totalDowntimeMs a.
Proof.
  intros top. unfold top, topDowntimeMachines.
  assert (Hsorted : StronglySorted
                      (fun a b => mm_totalDowntimeMs b <= mm_totalDowntimeMs a)
                      (arraySort downtimeGe fleetMetrics)).
  { eapply StronglySorted_weaken;
      [|apply (arraySort_StronglySorted downtimeGe)].
    - intros a b H. unfold downtimeGe in H. apply Z.leb_le in H. lia.
    - intros a b H. unfold downtimeGe in *. apply Z.leb_gt in H.
      apply Z.leb_le. lia.
    - intros a b c. unfold downtimeGe. rewrite !Z.leb_le. lia. }
  rewrite <- (take_drop 8 (arraySort downtimeGe fleetMetrics)) in Hsorted.
  apply StronglySorted_app in Hsorted as (Hcross & Htop & _).
  split; [by rewrite length_take, arraySort_length|].
  split; [exact Htop|].
  exists (drop 8 (arraySort downtimeGe fleetMetrics)). split.
  - rewrite take_drop. apply arraySort_Permutation.
  - intros a b Ha Hb. by apply Hcross.
Qed.

(** ** Formatting durations *)

(** X19: for a duration that is not negative, [formatHours] prints hours,
    minutes below 60 and seconds below 60 that add up to the duration
    rounded down to the second. *)
Theorem formatHours_decomposes (ms h m s : Z) :
  0 <= ms ->
  formatHoursParts ms = (h, m, s) ->
  0 <= h /\ 0 <= m < 60 /\ 0 <= s < 60
  /\ h * 3600 + m * 60 + s = ms / 1000
  /\ formatHours ms
     = pretty h +:+ "h " +:+ pretty m +:+ "m " +:+ pretty s +:+ "s".
Proof.
  clear calculateActiveDowntime getElapsedShiftTimeTodayMs WorkHoursConfig.
  intros Hms Hparts. unfold formatHours. rewrite Hparts.
  unfold formatHoursParts in Hparts.
  rewrite !Z.rem_mod_nonneg in Hparts by lia.
  injection Hparts as <- <- <-.
  repeat split; try reflexivity;
    Z.to_euclidean_division_equations; lia.
Qed.

Lemma append_length (a b : string) :
  String.length (a +:+ b) = (String.length a + String.length b)%nat.
Proof. induction a as [|c a IH]; simpl; [done|]. by rewrite IH. Qed.

Lemma padStart2_two_digits (n : nat) :
  (n < 100)%nat -> String.length (padStart2 (pretty (Z.of_nat n))) = 2%nat.
Proof.
  intros Hn.
  do 100 (destruct n as [|n]; [vm_compute; reflexivity|]). lia.
Qed.

(** X20: for a duration between 0 and 100 hours, [formatDuration] prints hours
    below 100, minutes below 60 and seconds below 60 that add up to the
    duration rounded down to the second, as a string of exactly eight
    characters. *)
Theorem formatDuration_clock (ms h m s : Z) :
  0 <= ms < 360000000 ->
  formatDurationParts ms = (h, m, s) ->
  0 <= h < 100 /\ 0 <= m < 60 /\ 0 <= s < 60
  /\ h * 3600 + m * 60 + s = ms / 1000
  /\ formatDuration ms
     = padStart2 (pretty h) +:+ ":" +:+ padStart2 (pretty m)
       +:+ ":" +:+ padStart2 (pretty s)
  /\ String.length (formatDuration ms) = 8%nat.
Proof.
  clear calculateActiveDowntime getElapsedShiftTimeTodayMs WorkHoursConfig.
  intros Hms Hparts.
  assert (Hneg : (ms <? 0) = false) by (apply Z.ltb_ge; lia).
  assert (Hfmt : formatDuration ms
                 = padStart2 (pretty h) +:+ ":" +:+ padStart2 (pretty m)
                   +:+ ":" +:+ padStart2 (pretty s)).
  { unfold formatDuration. by rewrite Hneg, Hparts. }
  unfold formatDurationParts in Hparts.
  rewrite !Z.rem_mod_nonneg in Hparts
    by (try apply Z.div_pos; lia).
  injection Hparts as Hh Hm Hs.
  assert (Hrange : 0 <= h < 100 /\ 0 <= m < 60 /\ 0 <= s < 60
                   /\ h * 3600 + m * 60 + s = ms / 1000).
  { subst h m s. repeat split;
      Z.to_euclidean_division_equations; lia. }
  destruct Hrange as (Hh' & Hm' & Hs' & Hsum).
  repeat split; try lia; [exact Hfmt|].
  rewrite Hfmt, !append_length.
  rewrite <- (Z2Nat.id h), <- (Z2Nat.id m), <- (Z2Nat.id s) by lia.
  rewrite !padStart2_two_digits by lia. reflexivity.
Qed.

(** ** The local store *)

Lemma find_none_forall {A : Type} (P : A -> bool) (l : list A) :
  (forall x, x ∈ l -> P x = false) -> List.find P l = None.
Proof.
  induction l as [|x l IH]; simpl; intros Hall; [done|].
  rewrite (Hall x) by (by left). apply IH. intros y Hy. apply Hall. by right.
Qed.

(** X21: a status update for an id that no stored machine carries changes
    nothing: it returns no result and the store is the one it was given. *)
Theorem updateStatus_unknown_machine (data : MockStore) (machineId : Z)
    (status : MachineStatus) (reason : option string)
    (notes operator : string) (workHours : WorkHoursConfig)
    (nowClosed nowUpdated nowLogged : Z) :
  (forall row, row ∈ store_machines data -> rowId row <> machineId) ->
  updateStatus data machineId status reason notes operator workHours
               nowClosed nowUpdated nowLogged
  = (None, data).
Proof.
  intros Hnone. unfold updateStatus.
  rewrite find_none_forall; [done|].
  intros row Hrow. apply Z.eqb_neq. by apply Hnone.
Qed.

Lemma find_some_elem {A : Type} (P : A -> bool) (l : list A) (x : A) :
  List.find P l = Some x -> x ∈ l /\ P x = true.
Proof.
  intros H. apply find_some in H as [Hin HP].
  split; [by apply list_elem_of_In | exact HP].
Qed.

(** X22: a status update for a stored machine appends exactly one event to the
    history, recording the machine's previous status, the new status and
    the reason (kept only for a stop); it keeps the machines in place, each
    with its id, and leaves the rows of the other machines untouched. *)
Theorem updateStatus_appends_one_event (data : MockStore) (machineId : Z)
    (status : MachineStatus) (reason : option string)
    (notes operator : string) (workHours : WorkHoursConfig)
    (nowClosed nowUpdated nowLogged : Z) (row : MachineRow) :
  List.find (fun m => rowId m =? machineId) (store_machines data) = Some row ->
  exists updated log data',
    updateStatus data machineId status reason notes operator workHours
                 nowClosed nowUpdated nowLogged
    = (Some (updated, log), data')
    /\ store_history data' = store_history data ++ [log]
    /\ log_machineId log = machineId
    /\ log_previousStatus log = m_status (row_machine row)
    /\ log_newStatus log = status
    /\ log_timestamp log = nowLogged
    /\ log_reason log = match status with STOPPED => reason | RUNNING => None end
    /\ map rowId (store_machines data') = map rowId (store_machines data)
    /\ (forall k other, store_machines data !! k = Some other ->
          store_machines data' !! k
          = Some (if rowId other =? machineId then updated else other))
    /\ rowId updated = machineId
    /\ m_status (row_machine updated) = status
    /\ m_lastUpdated (row_machine updated) = nowUpdated.
Proof.
  intros Hfind. unfold updateStatus. rewrite Hfind.
  apply find_some_elem in Hfind as [Hin Hid]. apply Z.eqb_eq in Hid.
  eexists _, _, _. split; [reflexivity|]. simpl.
  repeat split; try done.
  - rewrite map_map. apply map_ext_in. intros other _.
    destruct (rowId other =? machineId) eqn:Ho; [|done].
    apply Z.eqb_eq in Ho. unfold rowId in *. simpl. congruence.
  - intros k other Hk. change (map ?f ?l) with (f <$> l).
    by rewrite list_lookup_fmap, Hk.
Qed.

(** X23: restarting a stopped machine consolidates the stoppage: whatever the
    later instant at which it is read, today's downtime of the updated
    machine is today's downtime of the stopped machine as it stood at the
    instant of the restart. *)
Theorem restart_freezes_downtime (data : MockStore) (machineId : Z)
    (reason : option string) (notes operator : string)
    (workHours : WorkHoursConfig) (nowClosed nowUpdated nowLogged : Z)
    (row updated : MachineRow) (log : MachineHistoryLog) (data' : MockStore)
    (later : Z) :
  List.find (fun m => rowId m =? machineId) (store_machines data) = Some row ->
  m_status (row_machine row) = STOPPED ->
  updateStatus data machineId RUNNING reason notes operator workHours
               nowClosed nowUpdated nowLogged
  = (Some (updated, log), data') ->
  downtimeTodayMs workHours later (row_machine updated)
  = downtimeTodayMs workHours nowClosed (row_machine row).
Proof.
  intros Hfind Hstopped Hupd. unfold updateStatus in Hupd.
  rewrite Hfind, Hstopped in Hupd. injection Hupd as <- _ _.
  unfold downtimeTodayMs, currentStopDuration. simpl.
  rewrite Hstopped. lia.
Qed.

(** X24: any other status update leaves the accumulated downtime of the machine
    as it was. *)
Theorem other_updates_keep_accumulated_downtime (data : MockStore)
    (machineId : Z) (status : MachineStatus) (reason : option string)
    (notes operator : string) (workHours : WorkHoursConfig)
    (nowClosed nowUpdated nowLogged : Z)
    (row updated : MachineRow) (log : MachineHistoryLog) (data' : MockStore) :
  List.find (fun m => rowId m =? machineId) (store_machines data) = Some row ->
  ~ (m_status (row_machine row) = STOPPED /\ status = RUNNING) ->
  updateStatus data machineId status reason notes operator workHours
               nowClosed nowUpdated nowLogged
  = (Some (updated, log), data') ->
  m_accumulatedDowntimeMs (row_machine updated)
  = m_accumulatedDowntimeMs (row_machine row)
  /\ m_productionCount (row_machine updated)
     = m_productionCount (row_machine row)
  /\ m_scrapCount (row_machine updated) = m_scrapCount (row_machine row).
Proof.
  intros Hfind Hnot Hupd. unfold updateStatus in Hupd.
  rewrite Hfind in Hupd. injection Hupd as <- _ _. simpl.
  destruct (m_status (row_machine row)), status; try done.
  exfalso. by apply Hnot.
Qed.

(** X25: after the daily reset the history and the ids of the machines are as
    before, and every machine starts the day clean: no accumulated
    downtime, nothing produced, hence Quality 100, Performance 0 and OEE 0
    whatever the shift clock says. *)
Theorem resetDaily_starts_clean (data : MockStore) (now : Z)
    (workHours : WorkHoursConfig) (later : Z) (row : MachineRow) :
  row ∈ store_machines (resetDaily data now) ->
  store_history (resetDaily data now) = store_history data
  /\ map rowId (store_machines (resetDaily data now))
     = map rowId (store_machines data)
  /\ m_accumulatedDowntimeMs (row_machine row) = 0
  /\ m_lastUpdated (row_machine row) = now
  /\ quality (row_machine row) = 100%Q
  /\ (performance workHours later (row_machine row) == 0)%Q
  /\ (oee workHours later (row_machine row) == 0)%Q.
Proof.
  intros Hrow. unfold resetDaily in *. simpl in *.
  change (map ?f ?l) with (f <$> l) in Hrow.
  apply list_elem_of_fmap in Hrow as (old & -> & _). simpl.
  assert (Hperf : (performance workHours later
                     {| m_id := m_id (row_machine old);
                        m_name := m_name (row_machine old);
                        m_status := m_status (row_machine old);
                        m_lastUpdated := now;
                        m_accumulatedDowntimeMs := 0;
                        m_productionCount := 0;
                        m_scrapCount := 0;
                        m_cycleTimeValue := m_cycleTimeValue (row_machine old);
                        m_cycleTimeUnit := m_cycleTimeUnit (row_machine old) |}
                   == 0)%Q).
  { unfold performance, totalProduced. simpl.
    destruct (Qltb 0 _); [|reflexivity].
    unfold Qdiv. rewrite Qmult_0_l, Qmult_0_l. reflexivity. }
  repeat split; try done.
  - rewrite map_map. reflexivity.
  - unfold oee. rewrite Hperf. unfold Qdiv.
    rewrite !Qmult_0_l, Qmult_0_r, !Qmult_0_l. reflexivity.
Qed.

End Analytics.

(** * The properties on concrete inputs

    The collaborators are instantiated with the shift clock described by
    the specification. *)

Lemma ShiftClock_workingMsBetween_nonneg (startInstant endInstant : Z)
    (config : ShiftClock.WorkHoursConfig) :
  0 <= ShiftClock.workingMsBetween startInstant endInstant config.
Proof.
  unfold ShiftClock.workingMsBetween.
  destruct (endInstant <=? startInstant) eqn:Hle; [done|].
  apply Z.leb_gt in Hle.
  destruct (negb (ShiftClock.enabled config)); [lia|].
  generalize (ShiftClock.daysBetween startInstant endInstant) as days.
  assert (Hgen : forall days a, 0 <= a ->
            0 <= fold_left
                   (fun acc day =>
                      acc + ShiftClock.overlap startInstant endInstant
                              (day * ShiftClock.dayMs
                               + ShiftClock.shiftStart config)
                              (day * ShiftClock.dayMs
                               + ShiftClock.shiftEnd config))
                   days a).
  { induction days as [|d days IH]; intros a Ha; simpl; [done|].
    apply IH. unfold ShiftClock.overlap. lia. }
  intros days. by apply Hgen.
Qed.

Lemma ShiftClock_calculateActiveDowntime_nonneg (openedAt : Z)
    (config : ShiftClock.WorkHoursConfig) (now : Z) :
  0 <= ShiftClock.calculateActiveDowntime openedAt config now.
Proof. apply ShiftClock_workingMsBetween_nonneg. Qed.

(** The example of the specification: with work hours 08:00 to 18:49, a
    stoppage opened at 07:00 and still open at 09:00 counts for one hour. *)
Example ShiftClock_example :
  ShiftClock.calculateActiveDowntime (7 * 3600000) ShiftClock.defaultWorkHours
                                     (9 * 3600000)
  = 3600000.
Proof. reflexivity. Qed.

(** C1, on a concrete input: the only stoppage of the machine ended more
    than thirty days before [now], yet it is counted as a failure and
    priced into MTTR and MTBF; [getDowntimeIntervals] is called without a
    lower bound. *)
Theorem stale_interval_counted_in_mtbf_mttr :
  let now := fortyDaysLater in
  let ivs :=
    getDowntimeIntervals _ ShiftClock.calculateActiveDowntime oldLog
      [sampleMachine 1 RUNNING 0 0] ShiftClock.alwaysWorking None now in
  let out :=
    calculateFleetMetrics _ ShiftClock.calculateActiveDowntime
      ShiftClock.getElapsedShiftTimeTodayMs
      [sampleMachine 1 RUNNING 0 0] oldLog ShiftClock.alwaysWorking now in
  Forall (fun i => iv_end i < now - THIRTY_DAYS_MS) ivs
  /\ map mm_failureCount out = [1]
  /\ map mm_mttr out = [1]
  /\ Forall (fun mt => (mm_mtbf mt == 720)%Q) out.
Proof.
  intros now ivs out.
  assert (Hivs : ivs = [{| iv_machineId := 1; iv_reason := "Setup";
                           iv_start := 0; iv_end := 60000;
                           iv_duration := 60000 |}])
    by (vm_compute; reflexivity).
  assert (Hc : map mm_failureCount out = [1]) by (vm_compute; reflexivity).
  assert (Hm : map mm_mttr out = [1]) by (vm_compute; reflexivity).
  assert (Hb : map mm_mtbf out = [7200 # 10]) by (vm_compute; reflexivity).
  split.
  { rewrite Hivs. constructor; [|constructor]. vm_compute. reflexivity. }
  split; [exact Hc|]. split; [exact Hm|].
  apply (proj1 (Forall_map mm_mtbf (fun x => (x == 720)%Q) out)).
  rewrite Hb. constructor; [|constructor]. vm_compute. reflexivity.
Qed.

(** A stoppage of thirty-one days that ended a month ago drives the
    reported MTBF below zero. *)
Example stale_long_stoppage_negative_mtbf :
  let now := 62 * ShiftClock.dayMs in
  let out :=
    calculateFleetMetrics _ ShiftClock.calculateActiveDowntime
      ShiftClock.getElapsedShiftTimeTodayMs
      [sampleMachine 1 RUNNING 0 0]
      [stopEvent 1 "Setup" 0; runEvent 1 (31 * ShiftClock.dayMs)]
      ShiftClock.alwaysWorking now in
  map mm_failureCount out = [1]
  /\ map mm_mtbf out = [(-240) # 10].
Proof. split; vm_compute; reflexivity. Qed.

(** C2 as stated fails: four good units and one scrapped in an hour at a
    30-second cycle give reported percentages 100, 4.2 and 80, none of them
    touched by the clamp, whose product rounds to 3.4, while the reported
    OEE is 3.3. *)
Lemma oee_formula_fails_on_rounded_components :
  let machine := sampleMachine 1 RUNNING 4 1 in
  let wh := ShiftClock.alwaysWorking in
  let a := availability _ ShiftClock.calculateActiveDowntime
             ShiftClock.getElapsedShiftTimeTodayMs wh oneHour machine in
  let p := performance _ ShiftClock.calculateActiveDowntime
             ShiftClock.getElapsedShiftTimeTodayMs wh oneHour machine in
  let q := quality machine in
  let o := oee _ ShiftClock.calculateActiveDowntime
             ShiftClock.getElapsedShiftTimeTodayMs wh oneHour machine in
  exists mt,
    calculateFleetMetrics _ ShiftClock.calculateActiveDowntime
      ShiftClock.getElapsedShiftTimeTodayMs [machine] [] wh oneHour = [mt]
    /\ (clampPercent (round1 a) == round1 a)%Q
    /\ (clampPercent (round1 p) == round1 p)%Q
    /\ (clampPercent (round1 q) == round1 q)%Q
    /\ (clampPercent (round1 o) == round1 o)%Q
    /\ (mm_availability mt == 100)%Q
    /\ (mm_performance mt == 4.2)%Q
    /\ (mm_quality mt == 80)%Q
    /\ (mm_oee mt == 3.3)%Q
    /\ (round1 (mm_availability mt / 100 * (mm_performance mt / 100)
                * (mm_quality mt / 100) * 100) == 3.4)%Q
    /\ ~ (mm_oee mt
          == round1 (mm_availability mt / 100 * (mm_performance mt / 100)
                     * (mm_quality mt / 100) * 100))%Q.
Proof.
  eexists. split; [reflexivity|]. vm_compute.
  repeat split; try reflexivity; discriminate.
Qed.



(** C4 as stated fails: a stop and a restart of one machine that carry the
    same timestamp give one interval in one storage order and none in the
    other. *)
Lemma tied_timestamps_depend_on_storage_order :
  tiedLog ≡ₚ tiedLogShuffled
  /\ ~ (forall i,
          i ∈ getDowntimeIntervals _ ShiftClock.calculateActiveDowntime
                tiedLog [] ShiftClock.alwaysWorking None 100
          <-> i ∈ getDowntimeIntervals _ ShiftClock.calculateActiveDowntime
                    tiedLogShuffled [] ShiftClock.alwaysWorking None 100).
Proof.
  split; [apply Permutation_swap|].
  intros Hsame.
  assert (E1 : getDowntimeIntervals _ ShiftClock.calculateActiveDowntime
                 tiedLog [] ShiftClock.alwaysWorking None 100
               = [{| iv_machineId := 1; iv_reason := "Setup";
                     iv_start := 10; iv_end := 10; iv_duration := 0 |}])
    by (vm_compute; reflexivity).
  assert (E2 : getDowntimeIntervals _ ShiftClock.calculateActiveDowntime
                 tiedLogShuffled [] ShiftClock.alwaysWorking None 100 = [])
    by (vm_compute; reflexivity).
  rewrite E1, E2 in Hsame.
  destruct (Hsame {| iv_machineId := 1; iv_reason := "Setup";
                     iv_start := 10; iv_end := 10; iv_duration := 0 |})
    as [Hin _].
  specialize (Hin (list_elem_of_here _ _)). by apply elem_of_nil in Hin.
Qed.


(** C6 on a machine stopped at 10 for a setup and stopped again at 20 for a
    breakdown. *)
Lemma stop_overwrites_open_stoppage_witness :
  let st := replayStep None initialState (stopEvent 1 "Setup" 10) in
  let log := stopEvent 1 "Quebra" 20 in
  let st' := replayStep None st log in
  beforeFilter None (log_timestamp log) = false
  /\ log_newStatus log = STOPPED
  /\ activeStops st !! log_machineId log
     = Some {| as_start := 10; as_reason := "Setup" |}
  /\ intervals st' = intervals st
  /\ activeStops st' !! log_machineId log
     = Some {| as_start := 20; as_reason := "Quebra" |}.
Proof.
  intros st log st'.
  assert (Hf : beforeFilter None (log_timestamp log) = false) by reflexivity.
  assert (Hs : log_newStatus log = STOPPED) by reflexivity.
  assert (Ho : activeStops st !! log_machineId log
               = Some {| as_start := 10; as_reason := "Setup" |})
    by (vm_compute; reflexivity).
  destruct (stop_overwrites_open_stoppage _ ShiftClock.calculateActiveDowntime
              None st log _ Hf Hs Ho) as (Hivs & Hnew & _).
  split; [exact Hf|]. split; [exact Hs|]. split; [exact Ho|].
  split; [exact Hivs | exact Hnew].
Defined.

(** C7 with work hours disabled, one hour after midnight. *)
Lemma worked_oee_example_witness :
  let machine := sampleMachine 1 RUNNING 100 5 in
  let wh := ShiftClock.alwaysWorking in
  machine ∈ [machine]
  /\ m_status machine = RUNNING
  /\ m_cycleTimeValue machine = 30%Q
  /\ m_cycleTimeUnit machine = SECONDS
  /\ ShiftClock.getElapsedShiftTimeTodayMs wh oneHour = 3600000
  /\ m_accumulatedDowntimeMs machine = 0
  /\ m_productionCount machine = 100
  /\ m_scrapCount machine = 5
  /\ (theoreticalMaxProduction _ ShiftClock.calculateActiveDowntime
        ShiftClock.getElapsedShiftTimeTodayMs wh oneHour machine == 120)%Q
  /\ exists mt,
       mt ∈ calculateFleetMetrics _ ShiftClock.calculateActiveDowntime
              ShiftClock.getElapsedShiftTimeTodayMs [machine] [] wh oneHour
       /\ mm_machineId mt = m_id machine
       /\ (mm_availability mt == 100)%Q
       /\ (mm_performance mt == 87.5)%Q
       /\ (mm_quality mt == 95.2)%Q
       /\ (mm_oee mt == 83.3)%Q.
Proof.
  intros machine wh.
  assert (Hin : machine ∈ [machine]) by apply list_elem_of_here.
  assert (Hplanned : ShiftClock.getElapsedShiftTimeTodayMs wh oneHour
                     = 3600000) by (vm_compute; reflexivity).
  split; [exact Hin|]. do 3 (split; [reflexivity|]).
  split; [exact Hplanned|]. do 3 (split; [reflexivity|]).
  exact (worked_oee_example _ ShiftClock.calculateActiveDowntime
           ShiftClock.getElapsedShiftTimeTodayMs [machine] [] wh oneHour
           machine Hin eq_refl eq_refl eq_refl Hplanned
           eq_refl eq_refl eq_refl).
Defined.

(** * The further properties on concrete inputs *)

(** The interval of [oldLog] starts at its stop event. *)
Lemma intervals_start_at_stop_events_witness :
  let i := {| iv_machineId := 1; iv_reason := "Setup"; iv_start := 0;
              iv_end := 60000; iv_duration := 60000 |} in
  i ∈ getDowntimeIntervals _ ShiftClock.calculateActiveDowntime oldLog
        [sampleMachine 1 RUNNING 0 0] ShiftClock.alwaysWorking None oneHour
  /\ iv_reason i <> EmptyString
  /\ exists lstop,
       lstop ∈ oldLog /\ log_newStatus lstop = STOPPED
       /\ log_machineId lstop = iv_machineId i
       /\ iv_start i = log_timestamp lstop
       /\ iv_reason i = reasonOrDefault (log_reason lstop).
Proof.
  intros i.
  assert (Hin : i ∈ getDowntimeIntervals _ ShiftClock.calculateActiveDowntime
                      oldLog [sampleMachine 1 RUNNING 0 0]
                      ShiftClock.alwaysWorking None oneHour).
  { assert (E : getDowntimeIntervals _ ShiftClock.calculateActiveDowntime
                  oldLog [sampleMachine 1 RUNNING 0 0]
                  ShiftClock.alwaysWorking None oneHour = [i])
      by (vm_compute; reflexivity).
    rewrite E. apply list_elem_of_here. }
  split; [exact Hin|].
  exact (intervals_start_at_stop_events _ ShiftClock.calculateActiveDowntime
           oldLog [sampleMachine 1 RUNNING 0 0] ShiftClock.alwaysWorking
           None oneHour i Hin).
Defined.

(** Machine 2 never stops in [oldLog]. *)
Lemma machine_without_stop_events_witness :
  let machines := [sampleMachine 1 RUNNING 0 0; sampleMachine 2 RUNNING 0 0] in
  machines !! 1%nat = Some (sampleMachine 2 RUNNING 0 0)
  /\ (forall l, l ∈ oldLog -> log_newStatus l = STOPPED ->
                log_machineId l <> 2)
  /\ exists mt,
       calculateFleetMetrics _ ShiftClock.calculateActiveDowntime
         ShiftClock.getElapsedShiftTimeTodayMs machines oldLog
         ShiftClock.alwaysWorking oneHour !! 1%nat = Some mt
       /\ mm_failureCount mt = 0
       /\ mm_mttr mt = 0
       /\ (mm_mtbf mt == 720)%Q.
Proof.
  intros machines.
  assert (Hk : machines !! 1%nat = Some (sampleMachine 2 RUNNING 0 0))
    by reflexivity.
  assert (Hnone : forall l, l ∈ oldLog -> log_newStatus l = STOPPED ->
                            log_machineId l <> 2).
  { intros l Hl Hs. unfold oldLog in Hl.
    apply elem_of_cons in Hl as [->|Hl]; [discriminate|].
    apply list_elem_of_singleton in Hl as ->. discriminate. }
  split; [exact Hk|]. split; [exact Hnone|].
  exact (machine_without_stop_events _ ShiftClock.calculateActiveDowntime
           ShiftClock.getElapsedShiftTimeTodayMs machines oldLog
           ShiftClock.alwaysWorking oneHour 1%nat _ Hk Hnone).
Defined.

(** The entry of machine 1 is computed from its own events of [mixedLog]. *)
Lemma metrics_depend_on_own_events_witness :
  let machines := [sampleMachine 1 RUNNING 4 1; sampleMachine 2 STOPPED 0 0] in
  machines !! 0%nat = Some (sampleMachine 1 RUNNING 4 1)
  /\ calculateFleetMetrics _ ShiftClock.calculateActiveDowntime
       ShiftClock.getElapsedShiftTimeTodayMs machines mixedLog
       ShiftClock.defaultWorkHours (9 * oneHour) !! 0%nat
     = calculateFleetMetrics _ ShiftClock.calculateActiveDowntime
         ShiftClock.getElapsedShiftTimeTodayMs machines
         (List.filter (fun l => log_machineId l =? 1) mixedLog)
         ShiftClock.defaultWorkHours (9 * oneHour) !! 0%nat.
Proof.
  intros machines.
  assert (Hk : machines !! 0%nat = Some (sampleMachine 1 RUNNING 4 1))
    by reflexivity.
  split; [exact Hk|].
  exact (metrics_depend_on_own_events _ ShiftClock.calculateActiveDowntime
           ShiftClock.getElapsedShiftTimeTodayMs machines mixedLog
           ShiftClock.defaultWorkHours (9 * oneHour) 0%nat _ Hk).
Defined.

(** At 07:00 the default shift has not started. *)
Lemma no_planned_time_gives_zero_oee_witness :
  let machine := sampleMachine 1 RUNNING 100 5 in
  let wh := ShiftClock.defaultWorkHours in
  let mt := machineMetrics _ ShiftClock.calculateActiveDowntime
              ShiftClock.getElapsedShiftTimeTodayMs [] wh (7 * oneHour)
              machine in
  ShiftClock.getElapsedShiftTimeTodayMs wh (7 * oneHour) <= 0
  /\ (mm_availability mt == 0)%Q /\ (mm_oee mt == 0)%Q.
Proof.
  intros machine wh mt.
  assert (Hplanned : ShiftClock.getElapsedShiftTimeTodayMs wh (7 * oneHour)
                     <= 0) by (vm_compute; discriminate).
  split; [exact Hplanned|].
  exact (no_planned_time_gives_zero_oee _ ShiftClock.calculateActiveDowntime
           ShiftClock.getElapsedShiftTimeTodayMs [] wh (7 * oneHour) machine
           Hplanned).
Defined.

(** The percentages of the worked example are within bounds. *)
Lemma reported_percentages_within_bounds_witness :
  let machine := sampleMachine 1 RUNNING 100 5 in
  let wh := ShiftClock.alwaysWorking in
  let mt := machineMetrics _ ShiftClock.calculateActiveDowntime
              ShiftClock.getElapsedShiftTimeTodayMs
              (getDowntimeIntervals _ ShiftClock.calculateActiveDowntime []
                 [machine] wh None oneHour)
              wh oneHour machine in
  mt ∈ calculateFleetMetrics _ ShiftClock.calculateActiveDowntime
         ShiftClock.getElapsedShiftTimeTodayMs [machine] [] wh oneHour
  /\ (0 <= mm_availability mt <= 100)%Q
  /\ (0 <= mm_performance mt <= 100)%Q
  /\ (0 <= mm_quality mt <= 100)%Q
  /\ (0 <= mm_oee mt <= 100)%Q.
Proof.
  intros machine wh mt.
  assert (Hin : mt ∈ calculateFleetMetrics _ ShiftClock.calculateActiveDowntime
                       ShiftClock.getElapsedShiftTimeTodayMs [machine] [] wh
                       oneHour) by apply list_elem_of_here.
  split; [exact Hin|].
  exact (reported_percentages_within_bounds _
           ShiftClock.calculateActiveDowntime
           ShiftClock.getElapsedShiftTimeTodayMs [machine] [] wh oneHour mt
           Hin).
Defined.

(** The top item of the Pareto list of [mixedLog]. *)
Lemma pareto_counts_and_durations_witness :
  let machines := [sampleMachine 1 RUNNING 4 1; sampleMachine 2 STOPPED 0 0] in
  let wh := ShiftClock.defaultWorkHours in
  let now := 9 * oneHour in
  let ivs := getDowntimeIntervals _ ShiftClock.calculateActiveDowntime
               mixedLog machines wh None now in
  let it := {| pi_reason := "Falta de material"; pi_count := 1;
               pi_durationMs := 3600000; pi_accumulatedPercent := 100 |} in
  it ∈ calculatePareto _ ShiftClock.calculateActiveDowntime machines mixedLog
         wh now
  /\ pi_count it = Z.of_nat (length (withReason (pi_reason it) ivs))
  /\ pi_durationMs it = durationSum (withReason (pi_reason it) ivs)
  /\ 1 <= pi_count it.
Proof.
  intros machines wh now ivs it.
  assert (Hin : it ∈ calculatePareto _ ShiftClock.calculateActiveDowntime
                       machines mixedLog wh now).
  { assert (E : head (calculatePareto _ ShiftClock.calculateActiveDowntime
                        machines mixedLog wh now) = Some it)
      by (vm_compute; reflexivity).
    destruct (calculatePareto _ ShiftClock.calculateActiveDowntime
                machines mixedLog wh now) as [|x rest]; [discriminate|].
    injection E as ->. apply list_elem_of_here. }
  split; [exact Hin|].
  exact (pareto_counts_and_durations _ ShiftClock.calculateActiveDowntime
           machines mixedLog wh now it Hin).
Defined.

Lemma pareto_percent_within_bounds_witness :
  let machines := [sampleMachine 1 RUNNING 4 1; sampleMachine 2 STOPPED 0 0] in
  let wh := ShiftClock.defaultWorkHours in
  let now := 9 * oneHour in
  let it := {| pi_reason := "Falta de material"; pi_count := 1;
               pi_durationMs := 3600000; pi_accumulatedPercent := 100 |} in
  (forall start config n,
     0 <= ShiftClock.calculateActiveDowntime start config n)
  /\ it ∈ calculatePareto _ ShiftClock.calculateActiveDowntime machines
            mixedLog wh now
  /\ 0 <= pi_accumulatedPercent it <= 100.
Proof.
  intros machines wh now it.
  assert (Hin : it ∈ calculatePareto _ ShiftClock.calculateActiveDowntime
                       machines mixedLog wh now).
  { assert (E : head (calculatePareto _ ShiftClock.calculateActiveDowntime
                        machines mixedLog wh now) = Some it)
      by (vm_compute; reflexivity).
    destruct (calculatePareto _ ShiftClock.calculateActiveDowntime
                machines mixedLog wh now) as [|x rest]; [discriminate|].
    injection E as ->. apply list_elem_of_here. }
  split; [exact ShiftClock_calculateActiveDowntime_nonneg|].
  split; [exact Hin|].
  exact (pareto_percent_within_bounds _ ShiftClock.calculateActiveDowntime
           machines mixedLog wh now it
           ShiftClock_calculateActiveDowntime_nonneg Hin).
Defined.

(** A stop at 08:10 and the restart at 08:40. *)
Lemma single_stoppage_pareto_witness :
  let t1 := 8 * oneHour + 600000 in
  let t2 := 8 * oneHour + 2400000 in
  isInheritedMember (reasonOrDefault (Some "A")) = false
  /\ t1 < t2
  /\ calculatePareto _ ShiftClock.calculateActiveDowntime
       [sampleMachine 1 RUNNING 0 0] [stopEvent 1 "A" t1; runEvent 1 t2]
       ShiftClock.defaultWorkHours (9 * oneHour)
     = [{| pi_reason := reasonOrDefault (Some "A");
           pi_count := 1;
           pi_durationMs := t2 - t1;
           pi_accumulatedPercent := 100 |}].
Proof.
  intros t1 t2.
  assert (Hlabel : isInheritedMember (reasonOrDefault (Some "A")) = false)
    by reflexivity.
  assert (H12 : t1 < t2) by (vm_compute; reflexivity).
  split; [exact Hlabel|]. split; [exact H12|].
  exact (single_stoppage_pareto _ ShiftClock.calculateActiveDowntime 1 "A"
           t1 t2 [sampleMachine 1 RUNNING 0 0] ShiftClock.defaultWorkHours
           (9 * oneHour) Hlabel H12).
Defined.

(** A fleet averaging 47.5. *)
Lemma critical_average_implies_bottleneck_witness :
  let metrics := [sampleMetrics 1 55; sampleMetrics 2 40] in
  metrics <> []
  /\ (avgOEE metrics < 60)%Q
  /\ exists worst,
       worstMachine metrics = Some worst
       /\ (mm_oee worst < 60)%Q
       /\ generateAIInsights sampleToFixed1 sampleNumberToString metrics []
          = [criticalMessage sampleToFixed1 (avgOEE metrics);
             bottleneckMessage sampleNumberToString worst].
Proof.
  intros metrics.
  assert (Hne : metrics <> []) by discriminate.
  assert (Havg : (avgOEE metrics < 60)%Q) by (vm_compute; reflexivity).
  split; [exact Hne|]. split; [exact Havg|].
  exact (critical_average_implies_bottleneck sampleToFixed1
           sampleNumberToString metrics [] Hne Havg).
Defined.

(** A fleet whose machines are all at 80 or more. *)
Lemma healthy_fleet_only_top_cause_witness :
  let metrics := [sampleMetrics 1 80; sampleMetrics 2 92.5] in
  metrics <> []
  /\ (forall m, m ∈ metrics -> (70 <= mm_oee m)%Q)
  /\ generateAIInsights sampleToFixed1 sampleNumberToString metrics [] = [].
Proof.
  intros metrics.
  assert (Hne : metrics <> []) by discriminate.
  assert (Hall : forall m, m ∈ metrics -> (70 <= mm_oee m)%Q).
  { intros m Hm. unfold metrics in Hm.
    apply elem_of_cons in Hm as [->|Hm]; [vm_compute; discriminate|].
    apply list_elem_of_singleton in Hm as ->. vm_compute; discriminate. }
  split; [exact Hne|]. split; [exact Hall|].
  exact (healthy_fleet_only_top_cause sampleToFixed1 sampleNumberToString
           metrics [] Hne Hall).
Defined.

(** Totals over [mixedLog] with the day beginning at 00:00:00.060, the week
    at 00:00:00.020 and the month at the epoch. *)
Lemma time_totals_nested_witness :
  let machines := [sampleMachine 1 RUNNING 4 1; sampleMachine 2 STOPPED 0 0] in
  let totals :=
    calculateTimeTotals _ ShiftClock.calculateActiveDowntime machines mixedLog
      ShiftClock.alwaysWorking 100 60 20 0 in
  (forall start config n,
     0 <= ShiftClock.calculateActiveDowntime start config n)
  /\ 20 <= 60 /\ 0 <= 60
  /\ 0 <= dailyMs totals
  /\ dailyMs totals <= weeklyMs totals
  /\ dailyMs totals <= monthlyMs totals.
Proof.
  intros machines totals.
  assert (Hw : 20 <= 60) by lia. assert (Hm : 0 <= 60) by lia.
  split; [exact ShiftClock_calculateActiveDowntime_nonneg|].
  split; [exact Hw|]. split; [exact Hm|].
  exact (time_totals_nested _ ShiftClock.calculateActiveDowntime machines
           mixedLog ShiftClock.alwaysWorking 100 60 20 0
           ShiftClock_calculateActiveDowntime_nonneg Hw Hm).
Defined.

Lemma formatHours_decomposes_witness :
  0 <= 3723456
  /\ formatHoursParts 3723456 = (1, 2, 3)
  /\ 0 <= 1 /\ 0 <= 2 < 60 /\ 0 <= 3 < 60
  /\ 1 * 3600 + 2 * 60 + 3 = 3723456 / 1000
  /\ formatHours 3723456
     = pretty 1 +:+ "h " +:+ pretty 2 +:+ "m " +:+ pretty 3 +:+ "s".
Proof.
  assert (H0 : 0 <= 3723456) by lia.
  assert (Hp : formatHoursParts 3723456 = (1, 2, 3)) by reflexivity.
  split; [exact H0|]. split; [exact Hp|].
  exact (formatHours_decomposes 3723456 1 2 3 H0 Hp).
Defined.

Lemma formatDuration_clock_witness :
  0 <= 3723456 < 360000000
  /\ formatDurationParts 3723456 = (1, 2, 3)
  /\ 0 <= 1 < 100 /\ 0 <= 2 < 60 /\ 0 <= 3 < 60
  /\ 1 * 3600 + 2 * 60 + 3 = 3723456 / 1000
  /\ formatDuration 3723456
     = padStart2 (pretty 1) +:+ ":" +:+ padStart2 (pretty 2)
       +:+ ":" +:+ padStart2 (pretty 3)
  /\ String.length (formatDuration 3723456) = 8%nat.
Proof.
  assert (H0 : 0 <= 3723456 < 360000000) by lia.
  assert (Hp : formatDurationParts 3723456 = (1, 2, 3)) by reflexivity.
  split; [exact H0|]. split; [exact Hp|].
  exact (formatDuration_clock 3723456 1 2 3 H0 Hp).
Defined.

(** No stored machine carries the id 9. *)
Lemma updateStatus_unknown_machine_witness :
  (forall row, row ∈ store_machines sampleStore -> rowId row <> 9)
  /\ updateStatus _ ShiftClock.calculateActiveDowntime sampleStore 9 STOPPED
       (Some "Setup") EmptyString "Operador" ShiftClock.defaultWorkHours
       (10 * oneHour) (10 * oneHour) (10 * oneHour)
     = (None, sampleStore).
Proof.
  assert (Hnone : forall row, row ∈ store_machines sampleStore ->
                              rowId row <> 9).
  { intros row Hrow. unfold sampleStore in Hrow. simpl in Hrow.
    apply elem_of_cons in Hrow as [->|Hrow]; [discriminate|].
    apply list_elem_of_singleton in Hrow as ->. discriminate. }
  split; [exact Hnone|].
  exact (updateStatus_unknown_machine _ ShiftClock.calculateActiveDowntime
           sampleStore 9 STOPPED (Some "Setup") EmptyString "Operador"
           ShiftClock.defaultWorkHours (10 * oneHour) (10 * oneHour)
           (10 * oneHour) Hnone).
Defined.

(** Stopping machine 1 at 10:00. *)
Lemma updateStatus_appends_one_event_witness :
  let row := sampleRow 1 RUNNING (8 * oneHour) 0 in
  List.find (fun m => rowId m =? 1) (store_machines sampleStore) = Some row
  /\ exists updated log data',
       updateStatus _ ShiftClock.calculateActiveDowntime sampleStore 1 STOPPED
         (Some "Quebra") EmptyString "Operador" ShiftClock.defaultWorkHours
         (10 * oneHour) (10 * oneHour) (10 * oneHour)
       = (Some (updated, log), data')
       /\ store_history data' = store_history sampleStore ++ [log]
       /\ log_previousStatus log = RUNNING
       /\ log_newStatus log = STOPPED
       /\ map rowId (store_machines data')
          = map rowId (store_machines sampleStore).
Proof.
  intros row.
  assert (Hfind : List.find (fun m => rowId m =? 1)
                            (store_machines sampleStore) = Some row)
    by reflexivity.
  split; [exact Hfind|].
  destruct (updateStatus_appends_one_event _ ShiftClock.calculateActiveDowntime
              sampleStore 1 STOPPED (Some "Quebra") EmptyString "Operador"
              ShiftClock.defaultWorkHours (10 * oneHour) (10 * oneHour)
              (10 * oneHour) row Hfind)
    as (updated & log & data' & Hupd & Hhist & _ & Hprev & Hnew & _ & _
        & Hids & _).
  exists updated, log, data'.
  split; [exact Hupd|]. split; [exact Hhist|]. split; [exact Hprev|].
  split; [exact Hnew | exact Hids].
Defined.

(** Restarting machine 2 at 10:00 after a stop at 09:00: one hour is
    added to the ten minutes already accumulated. *)
Lemma restart_freezes_downtime_witness :
  let row := sampleRow 2 STOPPED (9 * oneHour) 600000 in
  let wh := ShiftClock.defaultWorkHours in
  let result := updateStatus _ ShiftClock.calculateActiveDowntime sampleStore
                  2 RUNNING None EmptyString "Operador" wh
                  (10 * oneHour) (10 * oneHour) (10 * oneHour) in
  List.find (fun m => rowId m =? 2) (store_machines sampleStore) = Some row
  /\ m_status (row_machine row) = STOPPED
  /\ exists updated log data',
       result = (Some (updated, log), data')
       /\ downtimeTodayMs _ ShiftClock.calculateActiveDowntime wh
            (12 * oneHour) (row_machine updated)
          = downtimeTodayMs _ ShiftClock.calculateActiveDowntime wh
              (10 * oneHour) (row_machine row)
       /\ downtimeTodayMs _ ShiftClock.calculateActiveDowntime wh
            (12 * oneHour) (row_machine updated) = 4200000.
Proof.
  intros row wh result.
  assert (Hfind : List.find (fun m => rowId m =? 2)
                            (store_machines sampleStore) = Some row)
    by reflexivity.
  assert (Hst : m_status (row_machine row) = STOPPED) by reflexivity.
  split; [exact Hfind|]. split; [exact Hst|].
  destruct result as [[[updated log]|] data'] eqn:Hres;
    [|exfalso; vm_compute in Hres; discriminate].
  exists updated, log, data'. split; [reflexivity|].
  pose proof (restart_freezes_downtime _ ShiftClock.calculateActiveDowntime
                sampleStore 2 None EmptyString "Operador" wh
                (10 * oneHour) (10 * oneHour) (10 * oneHour)
                row updated log data' (12 * oneHour) Hfind Hst Hres) as Heq.
  split; [exact Heq|]. rewrite Heq. vm_compute. reflexivity.
Defined.

(** Stopping the running machine 1 leaves its counters alone. *)
Lemma other_updates_keep_accumulated_downtime_witness :
  let row := sampleRow 1 RUNNING (8 * oneHour) 0 in
  let wh := ShiftClock.defaultWorkHours in
  let result := updateStatus _ ShiftClock.calculateActiveDowntime sampleStore
                  1 STOPPED (Some "Quebra") EmptyString "Operador" wh
                  (10 * oneHour) (10 * oneHour) (10 * oneHour) in
  List.find (fun m => rowId m =? 1) (store_machines sampleStore) = Some row
  /\ ~ (m_status (row_machine row) = STOPPED /\ STOPPED = RUNNING)
  /\ exists updated log data',
       result = (Some (updated, log), data')
       /\ m_accumulatedDowntimeMs (row_machine updated) = 0
       /\ m_productionCount (row_machine updated) = 12
       /\ m_scrapCount (row_machine updated) = 1.
Proof.
  intros row wh result.
  assert (Hfind : List.find (fun m => rowId m =? 1)
                            (store_machines sampleStore) = Some row)
    by reflexivity.
  assert (Hnot : ~ (m_status (row_machine row) = STOPPED /\ STOPPED = RUNNING))
    by (intros [_ H]; discriminate).
  split; [exact Hfind|]. split; [exact Hnot|].
  destruct result as [[[updated log]|] data'] eqn:Hres;
    [|exfalso; vm_compute in Hres; discriminate].
  exists updated, log, data'. split; [reflexivity|].
  exact (other_updates_keep_accumulated_downtime _
           ShiftClock.calculateActiveDowntime sampleStore 1 STOPPED
           (Some "Quebra") EmptyString "Operador" wh
           (10 * oneHour) (10 * oneHour) (10 * oneHour)
           row updated log data' Hfind Hnot Hres).
Defined.

(** The daily reset of the sample store at 08:00 of the next day. *)
Lemma resetDaily_starts_clean_witness :
  let now := 32 * oneHour in
  let wh := ShiftClock.defaultWorkHours in
  let row := {| row_machine :=
                  {| m_id := 2; m_name := "Modeladora"; m_status := STOPPED;
                     m_lastUpdated := now; m_accumulatedDowntimeMs := 0;
                     m_productionCount := 0; m_scrapCount := 0;
                     m_cycleTimeValue := 30; m_cycleTimeUnit := SECONDS |};
                row_reason := Some "Setup";
                row_notes := EmptyString;
                row_lastOperator := "Sistema" |} in
  row ∈ store_machines (resetDaily sampleStore now)
  /\ store_history (resetDaily sampleStore now) = store_history sampleStore
  /\ m_accumulatedDowntimeMs (row_machine row) = 0
  /\ quality (row_machine row) = 100%Q
  /\ (oee _ ShiftClock.calculateActiveDowntime
        ShiftClock.getElapsedShiftTimeTodayMs wh (33 * oneHour)
        (row_machine row) == 0)%Q.
Proof.
  intros now wh row.
  assert (Hin : row ∈ store_machines (resetDaily sampleStore now)).
  { apply list_elem_of_further, list_elem_of_here. }
  split; [exact Hin|].
  destruct (resetDaily_starts_clean _ ShiftClock.calculateActiveDowntime
              ShiftClock.getElapsedShiftTimeTodayMs sampleStore now wh
              (33 * oneHour) row Hin)
    as (Hhist & _ & Hacc & _ & Hq & _ & Hoee).
  split; [exact Hhist|]. split; [exact Hacc|]. split; [exact Hq | exact Hoee].
Defined.

(** * The revised properties on concrete inputs *)

(** C5 on [mixedLog]: machine 1 stops at 10 and restarts at 40, which
    closes an interval of 30 ms; machine 2, stopped in the snapshot, stops
    at 50 and has no later event, which gives a live interval priced by
    the shift clock. *)
Lemma closed_raw_live_clipped_witness :
  let machines := [sampleMachine 1 RUNNING 4 1; sampleMachine 2 STOPPED 0 0] in
  let wh := ShiftClock.defaultWorkHours in
  let now := 9 * oneHour in
  let out := getDowntimeIntervals _ ShiftClock.calculateActiveDowntime
               mixedLog machines wh None now in
  sortLogs mixedLog
  = [] ++ stopEvent 1 "Setup" 10
       :: [] ++ runEvent 1 40
       :: [stopEvent 2 "Falta de material" 50; stopEvent 1 "7" 60;
           runEvent 1 70]
  /\ {| iv_machineId := 1; iv_reason := "Setup"; iv_start := 10;
        iv_end := 40; iv_duration := 40 - 10 |} ∈ out
  /\ {| iv_machineId := 2; iv_reason := "Falta de material"; iv_start := 50;
        iv_end := now;
        iv_duration := ShiftClock.calculateActiveDowntime 50 wh now |} ∈ out.
Proof.
  intros machines wh now out.
  assert (Hsorted : sortLogs mixedLog
                    = [] ++ stopEvent 1 "Setup" 10
                         :: [] ++ runEvent 1 40
                         :: [stopEvent 2 "Falta de material" 50;
                             stopEvent 1 "7" 60; runEvent 1 70])
    by (vm_compute; reflexivity).
  assert (Hsorted' : sortLogs mixedLog
                     = [stopEvent 1 "Setup" 10; runEvent 1 40]
                       ++ stopEvent 2 "Falta de material" 50
                          :: [stopEvent 1 "7" 60; runEvent 1 70])
    by (vm_compute; reflexivity).
  destruct (closed_raw_live_clipped _ ShiftClock.calculateActiveDowntime
              mixedLog machines wh None now) as (_ & Hclosed & Hlive & _).
  split; [exact Hsorted|]. split.
  - apply (Hclosed [] (stopEvent 1 "Setup" 10) [] (runEvent 1 40)
             [stopEvent 2 "Falta de material" 50; stopEvent 1 "7" 60;
              runEvent 1 70] Hsorted);
      try reflexivity. constructor.
  - apply (Hlive [stopEvent 1 "Setup" 10; runEvent 1 40]
             (stopEvent 2 "Falta de material" 50)
             [stopEvent 1 "7" 60; runEvent 1 70]
             (sampleMachine 2 STOPPED 0 0) Hsorted');
      try reflexivity.
    + repeat constructor; discriminate.
    + apply list_elem_of_further, list_elem_of_here.
Defined.

(** The amended C4 on two machines that change state in the same
    milliseconds, and the reversed log. *)
Lemma reconstruction_order_independent_witness :
  let machines := [sampleMachine 1 RUNNING 4 1; sampleMachine 2 RUNNING 0 0] in
  let wh := ShiftClock.defaultWorkHours in
  let out := getDowntimeIntervals _ ShiftClock.calculateActiveDowntime
               crossTiedLog machines wh None (9 * oneHour) in
  let out' := getDowntimeIntervals _ ShiftClock.calculateActiveDowntime
                (rev crossTiedLog) machines wh None (9 * oneHour) in
  (forall l1 l2, l1 ∈ crossTiedLog -> l2 ∈ crossTiedLog ->
                 log_machineId l1 = log_machineId l2 ->
                 log_timestamp l1 = log_timestamp l2 -> l1 = l2)
  /\ crossTiedLog ≡ₚ rev crossTiedLog
  /\ out' <> out
  /\ forall i, i ∈ out' <-> i ∈ out.
Proof.
  intros machines wh out out'.
  assert (Hties : forall l1 l2, l1 ∈ crossTiedLog -> l2 ∈ crossTiedLog ->
                    log_machineId l1 = log_machineId l2 ->
                    log_timestamp l1 = log_timestamp l2 -> l1 = l2).
  { intros l1 l2 H1 H2 Hm Ht. unfold crossTiedLog in H1, H2.
    repeat (apply elem_of_cons in H1 as [->|H1]);
      try (by apply elem_of_nil in H1);
      repeat (apply elem_of_cons in H2 as [->|H2]);
      try (by apply elem_of_nil in H2);
      try reflexivity; discriminate. }
  assert (Hperm : crossTiedLog ≡ₚ rev crossTiedLog) by apply Permutation_rev.
  split; [exact Hties|]. split; [exact Hperm|]. split.
  - unfold out, out'. vm_compute. discriminate.
  - exact (proj2 (reconstruction_order_independent _
                    ShiftClock.calculateActiveDowntime crossTiedLog
                    (rev crossTiedLog) machines wh None (9 * oneHour)
                    Hties Hperm)).
Defined.

(** The amended C2 on the machine of the counterexample: reported OEE 3.3,
    unrounded product 3.33..., formula over the reported percentages 3.4. *)
Lemma oee_formula_within_tolerance_witness :
  let machine := sampleMachine 1 RUNNING 4 1 in
  let wh := ShiftClock.alwaysWorking in
  let a := availability _ ShiftClock.calculateActiveDowntime
             ShiftClock.getElapsedShiftTimeTodayMs wh oneHour machine in
  let p := performance _ ShiftClock.calculateActiveDowntime
             ShiftClock.getElapsedShiftTimeTodayMs wh oneHour machine in
  let q := quality machine in
  let mt := machineMetrics _ ShiftClock.calculateActiveDowntime
              ShiftClock.getElapsedShiftTimeTodayMs [] wh oneHour machine in
  let formula :=
    round1 (mm_availability mt / 100 * (mm_performance mt / 100)
            * (mm_quality mt / 100) * 100) in
  (0 <= a <= 100)%Q /\ (0 <= p <= 100)%Q /\ (0 <= q <= 100)%Q
  /\ (a / 100 * (p / 100) * (q / 100) * 100 - (1 # 20) <= mm_oee mt
      <= a / 100 * (p / 100) * (q / 100) * 100 + (1 # 20))%Q
  /\ (formula - (2 # 10) <= mm_oee mt <= formula + (2 # 10))%Q
  /\ (mm_oee mt == 3.3)%Q /\ (formula == 3.4)%Q.
Proof.
  intros machine wh a p q mt formula.
  assert (Ha : (0 <= a <= 100)%Q) by (split; vm_compute; discriminate).
  assert (Hp : (0 <= p <= 100)%Q) by (split; vm_compute; discriminate).
  assert (Hq : (0 <= q <= 100)%Q) by (split; vm_compute; discriminate).
  destruct (oee_formula_within_tolerance _ ShiftClock.calculateActiveDowntime
              ShiftClock.getElapsedShiftTimeTodayMs [] wh oneHour machine
              Ha Hp Hq) as [Hunrounded Hformula].
  split; [exact Ha|]. split; [exact Hp|]. split; [exact Hq|].
  split; [exact Hunrounded|]. split; [exact Hformula|].
  split; vm_compute; reflexivity.
Defined.

(** X11 on [mixedLog], whose reasons are ordinary labels. *)
Lemma pareto_one_item_per_reason_witness :
  let machines := [sampleMachine 1 RUNNING 4 1; sampleMachine 2 STOPPED 0 0] in
  let wh := ShiftClock.defaultWorkHours in
  let now := 9 * oneHour in
  let ivs := getDowntimeIntervals _ ShiftClock.calculateActiveDowntime
               mixedLog machines wh None now in
  let out := calculatePareto _ ShiftClock.calculateActiveDowntime machines
               mixedLog wh now in
  (forall l, l ∈ mixedLog ->
             isInheritedMember (reasonOrDefault (log_reason l)) = false)
  /\ NoDup (map pi_reason out)
  /\ forall reason, reason ∈ map pi_reason out
                    <-> exists i, i ∈ ivs /\ iv_reason i = reason.
Proof.
  intros machines wh now ivs out.
  assert (Hlabels : forall l, l ∈ mixedLog ->
            isInheritedMember (reasonOrDefault (log_reason l)) = false).
  { intros l Hl. unfold mixedLog in Hl.
    repeat (apply elem_of_cons in Hl as [->|Hl]);
      try (by apply elem_of_nil in Hl); reflexivity. }
  split; [exact Hlabels|].
  exact (pareto_one_item_per_reason _ ShiftClock.calculateActiveDowntime
           machines mixedLog wh now Hlabels).
Defined.
